(** * FallDetection: the ai-service core, embedded in Rocq

    A shallow embedding of [ai-service/model_service.py],
    [ai-service/database.py] and the single-image handler of
    [ai-service/main.py].

    Modelling conventions.
    - Python [int] is [Z]; [bytes] is [list byte]; [str] is [string],
      restricted to 7-bit characters (the text functions [strip], [lower]
      and [capitalize] are the ASCII ones).
    - The vision-language model and the image decoder are not part of the
      repository: they appear as the fields [generate] and [decode] of an
      environment record.
    - The PostgreSQL table [fall_detections] is a finite map from the
      unique column [image_hash] to the rest of the row.
    - Handlers run in a small state-and-exception monad over a [World]
      (table, readiness flag, pending storage faults, event trace).
    - A Python [float] holding a confidence is represented by the exact
      decimal it prints as (a rational); the one float product of
      [_make_crops], [m * 0.8], is computed on binary64 with the Standard
      Library's [SpecFloat]. *)

From Stdlib Require Import ZArith QArith Lia List Bool.
From Stdlib Require Import Strings.String Strings.Ascii Strings.Byte.
From Stdlib Require Import Floats.SpecFloat.
From stdpp Require Import base option gmap strings pretty.
Import ListNotations.

#[local] Open Scope string_scope.
#[local] Open Scope Z_scope.

(* ===================================================================== *)
(** ** Python text primitives (ASCII)                                     *)
(* ===================================================================== *)

Module PyStr.

(** The functions of this module are Python's on 7-bit text: characters
    from 128 on are left alone by [lower] and [capitalize] and are never
    white space here, while Python also strips U+0085, U+00A0 and other
    Unicode blanks and maps the case of other alphabets. The theorems that
    depend on it ask for 7-bit text ([is_ascii]). *)

(** [str.isspace] on 7-bit characters: TAB..CR, FS..US and the blank. *)
Definition is_space (c : ascii) : bool :=
  let n := nat_of_ascii c in
  ((9 <=? n) && (n <=? 13) || (28 <=? n) && (n <=? 32))%nat.

Definition lower_char (c : ascii) : ascii :=
  let n := nat_of_ascii c in
  if ((65 <=? n) && (n <=? 90))%nat then ascii_of_nat (n + 32) else c.

Definition upper_char (c : ascii) : ascii :=
  let n := nat_of_ascii c in
  if ((97 <=? n) && (n <=? 122))%nat then ascii_of_nat (n - 32) else c.

Fixpoint lower (s : string) : string :=
  match s with
  | EmptyString => EmptyString
  | String c s' => String (lower_char c) (lower s')
  end.

Fixpoint lstrip (s : string) : string :=
  match s with
  | EmptyString => EmptyString
  | String c s' => if is_space c then lstrip s' else s
  end.

(** [rstrip]: drop the trailing run of whitespace. *)
Fixpoint rstrip (s : string) : string :=
  match s with
  | EmptyString => EmptyString
  | String c s' =>
      match rstrip s' with
      | EmptyString => if is_space c then EmptyString else String c EmptyString
      | r => String c r
      end
  end.

Definition strip (s : string) : string := rstrip (lstrip s).

(** [s.startswith(p)] *)
Definition startswith (s p : string) : bool := String.prefix p s.

(** [p in s] *)
Fixpoint contains (s p : string) : bool :=
  String.prefix p s ||
  match s with
  | EmptyString => false
  | String _ s' => contains s' p
  end.

(** [s.capitalize()] *)
Definition capitalize (s : string) : string :=
  match s with
  | EmptyString => EmptyString
  | String c s' => String (upper_char c) (lower s')
  end.

Definition is_empty (s : string) : bool :=
  match s with EmptyString => true | _ => false end.

End PyStr.

(* ===================================================================== *)
(** ** Images and the outcome of a Python call                            *)
(* ===================================================================== *)

(** A crop box [(left, upper, right, lower)]. *)
Definition Box : Type := (Z * Z * Z * Z)%type.

(** A PIL image, as far as this code looks at it: a decoded RGB picture of
    some size, or the result of [Image.crop] on another image. *)
Inductive Image : Type :=
| Decoded (w h : Z) (pixels : list byte)
| Cropped (src : Image) (box : Box).

(** [image.size] *)
Definition size (img : Image) : Z * Z :=
  match img with
  | Decoded w h _ => (w, h)
  | Cropped _ (l, t, r, b) => (r - l, b - t)
  end.

(** [image.crop(box)] *)
Definition crop (img : Image) (box : Box) : Image := Cropped img box.

(** A call either returns a value or raises an exception (its message). *)
Inductive outcome (A : Type) : Type :=
| Returned (a : A)
| Raised (msg : string).
Arguments Returned {A} a.
Arguments Raised {A} msg.

(* ===================================================================== *)
(** ** binary64 arithmetic used by [_make_crops]                          *)
(* ===================================================================== *)

Module Float64.

Definition prec : Z := 53.
Definition emax : Z := 1024.

(** [float(m)] for a Python [int]: round to nearest even. *)
Definition of_int (m : Z) : spec_float := binary_normalize prec emax m 0 false.

(** The literal [0.8]: the binary64 number nearest to 4/5,
    [0x1.999999999999ap-1]. *)
Definition lit_0_8 : spec_float :=
  S754_finite false 7205759403792794%positive (-53).

Definition mul (x y : spec_float) : spec_float := SFmul prec emax x y.

(** [int(x)]: truncation toward zero; infinities and NaN raise. *)
Definition to_int (x : spec_float) : option Z :=
  match x with
  | S754_zero _ => Some 0
  | S754_finite s m e =>
      let v := if 0 <=? e then Z.pos m * 2 ^ e else Z.pos m / 2 ^ (- e) in
      Some (if s then - v else v)
  | S754_infinity _ | S754_nan => None
  end.

(** [int(m * 0.8)] *)
Definition int_mul_0_8 (m : Z) : option Z := to_int (mul (of_int m) lit_0_8).

(** [agree n m0]: on the [n] integers from [m0] on, [int(m * 0.8)] is the
    integer quotient [4 * m / 5]. *)
Fixpoint agree (n : nat) (m0 : Z) : bool :=
  match n with
  | O => true
  | S k =>
      match int_mul_0_8 m0 with
      | Some v => (v =? 4 * m0 / 5) && agree k (m0 + 1)
      | None => false
      end
  end.

(** The largest image side for which the float product was checked
    against the integer quotient. *)
Definition max_side : Z := 65535.

End Float64.

(* ===================================================================== *)
(** ** model_service.py                                                   *)
(* ===================================================================== *)

(** What the code asks of the world outside the repository. *)
Record Env : Type := {
  (** [Image.open(io.BytesIO(b)).convert("RGB")] *)
  decode : list byte -> outcome Image;
  (** the text decoded from the tokens the model generates for an image
      and a question (before [.strip().lower()]) *)
  generate : Image -> string -> outcome string;
  (** [int((time.time() - start_time) * 1000)] *)
  elapsed_ms : Z;
  (** the table's [CURRENT_TIMESTAMP], as [isoformat] prints it *)
  db_now : string
}.

Definition q_person : string :=
  "Is there a person visible in this image? Answer Yes or No.".
Definition q_fall : string :=
  "Is any person lying on the ground or floor (appears fallen)? Answer Yes or No.".

(** The tail of [_ask_yes_no]: from the decoded text to the answer. *)
Definition interpret (raw : string) : string :=
  let text := PyStr.lower (PyStr.strip raw) in
  if PyStr.startswith text "yes" then "Yes"
  else if PyStr.startswith text "no" then "No"
  else if PyStr.contains text "yes" && negb (PyStr.contains text "no") then "Yes"
  else if PyStr.contains text "no" then "No"
  else if PyStr.is_empty text then "No" else PyStr.capitalize text.

(** [_make_crops] *)
Definition _make_crops (image : Image) : outcome (list Image) :=
  let '(w, h) := size image in
  let m := Z.min w h in
  let l := (w - m) / 2 in
  let t := (h - m) / 2 in
  let square := crop image (l, t, l + m, t + m) in
  match Float64.int_mul_0_8 m with
  | None => Raised "cannot convert float to integer"
  | Some s =>
      let l2 := Z.max 0 ((w - s) / 2) in
      let t2 := Z.max 0 ((h - s) / 2) in
      Returned [image; square; crop image (l2, t2, l2 + s, t2 + s)]
  end.

(** [round(x, 3)] of the quotient [n / d]: nearest multiple of 1/1000,
    ties to even. *)
Definition round3 (n d : Z) : Q :=
  let t := 1000 * n in
  let q := t / d in
  let r := t mod d in
  let up := if 2 * r <? d then false
            else if d <? 2 * r then true
            else Z.odd q in
  Qmake (if up then q + 1 else q) 1000.

(** The dictionary [detect_fall] returns. *)
Record Detection : Type := {
  det_result : string;
  det_confidence : Q;
  votes_yes : Z;
  votes_no : Z;
  total_crops : Z
}.

(* ===================================================================== *)
(** ** hashlib.sha256(...).hexdigest()                                    *)
(* ===================================================================== *)

Module Sha256.

Definition wrap (x : Z) : Z := x mod 2 ^ 32.
Definition add32 (x y : Z) : Z := wrap (x + y).
Definition not32 (x : Z) : Z := Z.lxor x (2 ^ 32 - 1).
Definition rotr (n x : Z) : Z :=
  wrap (Z.lor (Z.shiftr x n) (Z.shiftl x (32 - n))).

Definition Ch (x y z : Z) : Z :=
  Z.lxor (Z.land x y) (Z.land (not32 x) z).
Definition Maj (x y z : Z) : Z :=
  Z.lxor (Z.lxor (Z.land x y) (Z.land x z)) (Z.land y z).
Definition bsig0 (x : Z) : Z :=
  Z.lxor (Z.lxor (rotr 2 x) (rotr 13 x)) (rotr 22 x).
Definition bsig1 (x : Z) : Z :=
  Z.lxor (Z.lxor (rotr 6 x) (rotr 11 x)) (rotr 25 x).
Definition ssig0 (x : Z) : Z :=
  Z.lxor (Z.lxor (rotr 7 x) (rotr 18 x)) (Z.shiftr x 3).
Definition ssig1 (x : Z) : Z :=
  Z.lxor (Z.lxor (rotr 17 x) (rotr 19 x)) (Z.shiftr x 10).

(** The first 64 primes. *)
Definition primes : list Z :=
  [2; 3; 5; 7; 11; 13; 17; 19; 23; 29; 31; 37; 41; 43; 47; 53;
   59; 61; 67; 71; 73; 79; 83; 89; 97; 101; 103; 107; 109; 113; 127; 131;
   137; 139; 149; 151; 157; 163; 167; 173; 179; 181; 191; 193; 197; 199;
   211; 223; 227; 229; 233; 239; 241; 251; 257; 263; 269; 271; 277; 281;
   283; 293; 307; 311].

(** Integer cube root by bisection: the [r] in [lo, hi) with
    [r ^ 3 <= n < (r + 1) ^ 3]. *)
Fixpoint cbrt_between (fuel : nat) (n lo hi : Z) : Z :=
  match fuel with
  | O => lo
  | S k =>
      let mid := (lo + hi) / 2 in
      if mid * mid * mid <=? n
      then cbrt_between k n mid hi
      else cbrt_between k n lo mid
  end.

(** The first 32 bits of the fractional part of the cube root of [p]. *)
Definition cbrt_frac (p : Z) : Z :=
  wrap (cbrt_between 40 (p * 2 ^ 96) 0 (2 ^ 36)).

(** The first 32 bits of the fractional part of the square root of [p]. *)
Definition sqrt_frac (p : Z) : Z := wrap (Z.sqrt (p * 2 ^ 64)).

(** The round constants: one per prime. *)
Definition K : list Z := Eval vm_compute in map cbrt_frac primes.

(** The [n] low bytes of [x], most significant first. *)
Fixpoint be_bytes (n : nat) (x : Z) : list Z :=
  match n with
  | O => []
  | S k => Z.land (Z.shiftr x (8 * Z.of_nat k)) 255 :: be_bytes k x
  end.

(** Message padding: a 1 bit, zeros, and the bit length on 64 bits. *)
Definition pad (msg : list Z) : list Z :=
  let len := Z.of_nat (length msg) in
  msg ++ [128] ++ repeat 0 (Z.to_nat ((55 - len) mod 64)) ++ be_bytes 8 (8 * len).

(** Big-endian 32-bit words of a byte string. *)
Fixpoint words (fuel : nat) (bs : list Z) : list Z :=
  match fuel, bs with
  | S k, b0 :: b1 :: b2 :: b3 :: rest =>
      (((b0 * 256 + b1) * 256 + b2) * 256 + b3) :: words k rest
  | _, _ => []
  end.

(** The message schedule, newest word first. *)
Fixpoint schedule (n : nat) (rev_w : list Z) : list Z :=
  match n with
  | O => rev_w
  | S k =>
      let w2 := nth 1 rev_w 0 in
      let w7 := nth 6 rev_w 0 in
      let w15 := nth 14 rev_w 0 in
      let w16 := nth 15 rev_w 0 in
      schedule k
        (add32 (add32 (ssig1 w2) w7) (add32 (ssig0 w15) w16) :: rev_w)
  end.

Definition Regs : Type := (Z * Z * Z * Z * Z * Z * Z * Z)%type.

Definition round (r : Regs) (kw : Z * Z) : Regs :=
  let '(a, b, c, d, e, f, g, h) := r in
  let '(k, w) := kw in
  let t1 := add32 (add32 (add32 h (bsig1 e)) (add32 (Ch e f g) k)) w in
  let t2 := add32 (bsig0 a) (Maj a b c) in
  (add32 t1 t2, a, b, c, add32 d t1, e, f, g).

Definition compress (hs : Regs) (block : list Z) : Regs :=
  let w := rev (schedule 48 (rev block)) in
  let '(a, b, c, d, e, f, g, h) := fold_left round (combine K w) hs in
  let '(a0, b0, c0, d0, e0, f0, g0, h0) := hs in
  (add32 a0 a, add32 b0 b, add32 c0 c, add32 d0 d,
   add32 e0 e, add32 f0 f, add32 g0 g, add32 h0 h).

Fixpoint blocks (fuel : nat) (ws : list Z) (hs : Regs) : Regs :=
  match fuel, ws with
  | S k, _ :: _ => blocks k (skipn 16 ws) (compress hs (firstn 16 ws))
  | _, _ => hs
  end.

(** The initial hash value: one word per prime, for the first eight. *)
Definition init : Regs :=
  (sqrt_frac 2, sqrt_frac 3, sqrt_frac 5, sqrt_frac 7,
   sqrt_frac 11, sqrt_frac 13, sqrt_frac 17, sqrt_frac 19).

Definition hex_digit (d : Z) : ascii :=
  nth (Z.to_nat d)
    ["0"; "1"; "2"; "3"; "4"; "5"; "6"; "7";
     "8"; "9"; "a"; "b"; "c"; "d"; "e"; "f"]%char "0"%char.

Fixpoint hex (n : nat) (x : Z) (k : string) : string :=
  match n with
  | O => k
  | S j => String (hex_digit (Z.land (Z.shiftr x (4 * Z.of_nat j)) 15)) (hex j x k)
  end.

Definition digest (msg : list byte) : Regs :=
  let bs := pad (map (fun b => Z.of_N (Byte.to_N b)) msg) in
  let ws := words (length bs) bs in
  blocks (length ws) ws init.

Definition hexdigest (msg : list byte) : string :=
  let '(a, b, c, d, e, f, g, h) := digest msg in
  hex 8 a (hex 8 b (hex 8 c (hex 8 d (hex 8 e (hex 8 f (hex 8 g (hex 8 h ""))))))).

End Sha256.

(* ===================================================================== *)
(** ** The world the handlers run in                                      *)
(* ===================================================================== *)

(** A row of [fall_detections], without its key [image_hash] and without
    the serial [id]. *)
Record Row : Type := {
  row_result : string;
  row_confidence : Q;
  row_created_at : string;
  row_image_size : string;
  row_processing_time_ms : Z
}.

(** What a request does that another component can observe. *)
Inductive Event : Type :=
| EvRead                            (* [await file.read()] *)
| EvHash (b : list byte)            (* [calculate_image_hash] *)
| EvSelect (h : string)             (* the SELECT of [check_existing_result] *)
| EvDecode                          (* [Image.open(...).convert("RGB")] *)
| EvDetect                          (* [model_service.detect_fall] entered *)
| EvAcquire                         (* [model_lock] taken *)
| EvRelease                         (* [model_lock] released *)
| EvAsk (img : Image) (q : string)  (* one [model.generate] *)
| EvInsert (h : string)             (* the INSERT of [save_result] *)
| EvLogError (msg : string).        (* [logging.error] *)

Record World : Type := {
  (** the table, keyed by the unique column [image_hash] *)
  store : gmap string Row;
  (** [model_service.is_initialized] *)
  model_ready : bool;
  (** for each coming [pool.acquire()], whether the storage fails there;
      past the end of the list it works *)
  db_faults : list bool;
  (** events so far, oldest first *)
  trace : list Event
}.

Definition M (A : Type) : Type := World -> outcome A * World.

Definition ret {A} (a : A) : M A := fun w => (Returned a, w).
Definition raise {A} (msg : string) : M A := fun w => (Raised msg, w).
Definition bind {A B} (m : M A) (k : A -> M B) : M B :=
  fun w =>
    match m w with
    | (Returned a, w') => k a w'
    | (Raised e, w') => (Raised e, w')
    end.

Notation "'let!' x ':=' m 'in' k" := (bind m (fun x => k))
  (at level 10, x name, m at level 100, k at level 200).
Notation "'do!' m 'in' k" := (bind m (fun _ => k))
  (at level 10, m at level 100, k at level 200).

Definition lift {A} (o : outcome A) : M A := fun w => (o, w).

Definition emit (e : Event) : M unit :=
  fun w => (Returned tt,
            {| store := store w; model_ready := model_ready w;
               db_faults := db_faults w; trace := trace w ++ [e] |}).

(** [try: m except Exception as e: h e] *)
Definition try_except {A} (m : M A) (h : string -> M A) : M A :=
  fun w =>
    match m w with
    | (Returned a, w') => (Returned a, w')
    | (Raised e, w') => h e w'
    end.

(** [async with lock: m]: the lock is released on every exit. *)
Definition with_lock {A} (m : M A) : M A :=
  fun w =>
    match (do! emit EvAcquire in m) w with
    | (o, w') => (o, snd (emit EvRelease w'))
    end.

(** [async with self.pool.acquire() as conn]: consumes one entry of the
    fault schedule and raises when it says so. *)
Definition pool_acquire : M unit :=
  fun w =>
    let w' := {| store := store w; model_ready := model_ready w;
                 db_faults := tl (db_faults w); trace := trace w |} in
    match db_faults w with
    | true :: _ => (Raised "connection failure", w')
    | _ => (Returned tt, w')
    end.

(* ===================================================================== *)
(** ** model_service.py, continued                                        *)
(* ===================================================================== *)

Section Service.

Variable env : Env.

(** [_ask_yes_no] *)
Definition _ask_yes_no (image : Image) (question : string) : M string :=
  do! emit (EvAsk image question) in
  let! raw := lift (generate env image question) in
  ret (interpret raw).

(** The [for idx, img in enumerate(crops)] loop of [detect_fall]. *)
Fixpoint vote_loop (crops : list Image) (yes_votes no_votes : Z) : M (Z * Z) :=
  match crops with
  | [] => ret (yes_votes, no_votes)
  | img :: rest =>
      let! seen := _ask_yes_no img q_person in
      if String.eqb seen "Yes" then
        let! fallen := _ask_yes_no img q_fall in
        if String.eqb fallen "Yes"
        then vote_loop rest (yes_votes + 1) no_votes
        else vote_loop rest yes_votes (no_votes + 1)
      else vote_loop rest yes_votes (no_votes + 1)
  end.

(** The dictionary built after the loop. *)
Definition tally (yes_votes no_votes n_crops : Z) : Detection :=
  {| det_result := if no_votes <? yes_votes then "Yes" else "No";
     det_confidence := round3 (Z.max yes_votes no_votes) n_crops;
     votes_yes := yes_votes;
     votes_no := no_votes;
     total_crops := n_crops |}.

(** The [try] block of [detect_fall] with its [except] clause, which
    logs and raises again. *)
Definition detect_fall_body (image : Image) : M Detection :=
  try_except
    (let! crops := lift (_make_crops image) in
     let! votes := vote_loop crops 0 0 in
     ret (tally (fst votes) (snd votes) (Z.of_nat (length crops))))
    (fun e => do! emit (EvLogError e) in raise e).

(** [detect_fall] *)
Definition detect_fall (image : Image) : M Detection :=
  do! emit EvDetect in
  fun w =>
    if negb (model_ready w) then raise "Model not initialized" w
    else with_lock (detect_fall_body image) w.

End Service.

(* ===================================================================== *)
(** ** database.py                                                        *)
(* ===================================================================== *)

(** The JSON object a classification request is answered with.
    [created_at] is present only in answers read back from the table. *)
Record ResultDict : Type := {
  image_hash : string;
  result : string;
  confidence : Q;
  created_at : option string;
  image_size : string;
  processing_time_ms : Z;
  cached : bool
}.

(** [calculate_image_hash] *)
Definition calculate_image_hash (image_bytes : list byte) : string :=
  Sha256.hexdigest image_bytes.

(** [calculate_image_hash] as a call: it has no failing path. *)
Definition calculate_image_hash_call (image_bytes : list byte) : outcome string :=
  Returned (calculate_image_hash image_bytes).

(** [check_existing_result], for a key the database can hold: a text with
    a NUL character makes the real query raise, which is not modelled
    (the handlers only pass fingerprints, which are hexadecimal). *)
Definition check_existing_result (h : string) : M (option ResultDict) :=
  do! pool_acquire in
  do! emit (EvSelect h) in
  fun w =>
    match store w !! h with
    | Some row =>
        ret (Some {| image_hash := h;
                     result := row_result row;
                     confidence := row_confidence row;
                     created_at := Some (row_created_at row);
                     image_size := row_image_size row;
                     processing_time_ms := row_processing_time_ms row;
                     cached := true |}) w
    | None => ret None w
    end.

(** [INSERT ... ON CONFLICT (image_hash) DO NOTHING], for a row that fits
    the typed columns of the table ([fits_columns]): a value that does not
    fit (a longer text, a NUL character, a number outside 32 bits) makes
    the real statement raise, which is not modelled; the theorems about
    arbitrary rows ask for [fits_columns]. *)
Definition insert_or_ignore (h : string) (row : Row) : M unit :=
  do! emit (EvInsert h) in
  fun w =>
    (Returned tt,
     {| store := match store w !! h with
                 | Some _ => store w
                 | None => <[h := row]> (store w)
                 end;
        model_ready := model_ready w;
        db_faults := db_faults w;
        trace := trace w |}).

(** An uploaded file: its declared content type and its bytes. *)
Record UploadFile : Type := {
  content_type : option string;
  body : list byte
}.

(** What the client gets: a JSON object, or an [HTTPException]. *)
Inductive Response : Type :=
| Json (d : ResultDict)
| HTTPException (status_code : Z) (detail : string).

Section Handlers.

Variable env : Env.

(** [save_result] *)
Definition save_result (h res : string) (conf : Q) (sz : string) (ms : Z)
  : M bool :=
  try_except
    (do! pool_acquire in
     do! insert_or_ignore h
           {| row_result := res; row_confidence := conf;
              row_created_at := db_now env;
              row_image_size := sz; row_processing_time_ms := ms |} in
     ret true)
    (fun e =>
       do! emit (EvLogError ("Database save error: " ++ e)) in
       ret false).

(* =================================================================== *)
(** ** main.py                                                          *)
(* =================================================================== *)

(** [f"{image.size[0]}x{image.size[1]}"] *)
Definition size_string (image : Image) : string :=
  pretty (fst (size image)) ++ "x" ++ pretty (snd (size image)).

(** [detect_fall_single] *)
Definition detect_fall_single (file : UploadFile) : M Response :=
  fun w =>
    if negb (model_ready w)
    then ret (HTTPException 503 "Model loading, try again shortly") w
    else
      match content_type file with
      | None => raise "'NoneType' object has no attribute 'startswith'" w
      | Some ct =>
          if negb (PyStr.startswith ct "image/")
          then ret (HTTPException 400 "File must be an image") w
          else
            try_except
              (do! emit EvRead in
               let image_bytes := body file in
               do! emit (EvHash image_bytes) in
               let h := calculate_image_hash image_bytes in
               let! existing_result := check_existing_result h in
               match existing_result with
               | Some d => ret (Json d)
               | None =>
                   do! emit EvDecode in
                   let! image := lift (decode env image_bytes) in
                   let sz := size_string image in
                   let! r := detect_fall env image in
                   let processing_time := elapsed_ms env in
                   let! saved := save_result h (det_result r) (det_confidence r)
                                             sz processing_time in
                   ret (Json {| image_hash := h;
                                result := det_result r;
                                confidence := det_confidence r;
                                created_at := None;
                                image_size := sz;
                                processing_time_ms := processing_time;
                                cached := false |})
               end)
              (fun e =>
                 do! emit (EvLogError ("Error processing image: " ++ e)) in
                 ret (HTTPException 500 ("Processing failed: " ++ e)))
              w
      end.

End Handlers.

(* ===================================================================== *)
(** ** The specification's vocabulary and the proofs' auxiliaries         *)
(* ===================================================================== *)

(** The three readings of a model answer. *)
Inductive Answer : Type := Affirmative | Negative | Indeterminate.

(** Answer normalisation as the specification words it: trim and
    lowercase; a text starting with the affirmative token is affirmative;
    one starting with the negative token is negative; else one containing
    the affirmative token and not the negative one is affirmative; else one
    containing the negative token is negative; else it is indeterminate. *)
Definition normalize (raw : string) : Answer :=
  let text := PyStr.lower (PyStr.strip raw) in
  if String.prefix "yes" text then Affirmative
  else if String.prefix "no" text then Negative
  else if PyStr.contains text "yes" && negb (PyStr.contains text "no")
       then Affirmative
  else if PyStr.contains text "no" then Negative
  else Indeterminate.

Definition is_affirmative (a : Answer) : bool :=
  match a with Affirmative => true | _ => false end.

(** [w] with the events [es] appended to its trace. *)
Definition logged (w : World) (es : list Event) : World :=
  {| store := store w; model_ready := model_ready w;
     db_faults := db_faults w; trace := trace w ++ es |}.

(** The segment [a, b] lies in [lo, hi], as near to its middle as whole
    pixels allow: the margin after it exceeds the margin before it by at
    most one. *)
Definition centered (lo hi a b : Z) : Prop :=
  lo <= a /\ b <= hi /\ 0 <= (hi - b) - (a - lo) <= 1.

(** A box is a centred square of side [s] inside a [w] by [h] image. *)
Definition centered_square (w h s : Z) (box : Box) : Prop :=
  let '(l, t, r, b) := box in
  r - l = s /\ b - t = s /\ centered 0 w l r /\ centered 0 h t b.

(** [inner] lies inside [outer]. *)
Definition box_within (inner outer : Box) : Prop :=
  let '(l, t, r, b) := inner in
  let '(l', t', r', b') := outer in
  l' <= l /\ t' <= t /\ r <= r' /\ b <= b'.

(** The events of the classifier and of the lock around it. *)
Definition touches_classifier (e : Event) : bool :=
  match e with
  | EvDetect | EvAcquire | EvRelease | EvAsk _ _ | EvDecode => true
  | _ => false
  end.

(** A predicate holds of all 256 characters. *)
Definition all_ascii (p : ascii -> bool) : bool :=
  forallb (fun n => p (ascii_of_nat n)) (seq 0 256).

Module Scenario.

(** A 640 by 480 picture. *)
Definition picture : Image := Decoded 640 480 [].

(** A model that sees a person everywhere and a fall in the two square
    crops only. *)
Definition fall_in_crops (img : Image) (q : string) : outcome string :=
  if String.eqb q q_person then Returned "Yes"
  else match img with
       | Decoded _ _ _ => Returned " no"
       | Cropped _ _ => Returned "Yes."
       end.

(** A decoder that takes any payload starting with the PNG signature for
    [picture] and, like every decoder, cannot identify an image in
    anything else. *)
Definition decoder (b : list byte) : outcome Image :=
  match b with
  | x89 :: x50 :: x4e :: x47 :: _ => Returned picture
  | _ => Raised "cannot identify image file"
  end%byte.

Definition env : Env :=
  {| decode := decoder; generate := fall_in_crops;
     elapsed_ms := 1234; db_now := "2025-01-01T00:00:00" |}.

(** A running service with an empty table and a healthy storage. *)
Definition fresh : World :=
  {| store := ∅; model_ready := true; db_faults := []; trace := [] |}.

Definition png (b : list byte) : UploadFile :=
  {| content_type := Some "image/png"; body := b |}.

(** A payload with the PNG signature, and one that is plain text. *)
Definition payload : list byte := [x89; x50; x4e; x47]%byte.
Definition hello : list byte := [x68; x65; x6c; x6c; x6f]%byte.

(** A row stored by an earlier request. *)
Definition old_row : Row :=
  {| row_result := "No"; row_confidence := Qmake 1000 1000;
     row_created_at := "2024-12-31T23:59:59";
     row_image_size := "640x480"; row_processing_time_ms := 900 |}.

(** A service that holds a row for [payload], in three states: running,
    still loading its model, and with the storage failing at the second
    access. *)
Definition holding (ready : bool) (faults : list bool) : World :=
  {| store := {[ calculate_image_hash payload := old_row ]};
     model_ready := ready; db_faults := faults; trace := [] |}.

End Scenario.

(** Two worlds with the same table, readiness and fault schedule. *)
Definition same_service (w1 w2 : World) : Prop :=
  store w1 = store w2 /\ model_ready w1 = model_ready w2 /\
  db_faults w1 = db_faults w2.

(** A ready service with nothing in it. *)
Definition idle : World :=
  {| store := ∅; model_ready := true; db_faults := []; trace := [] |}.

(** The classification proper: what [detect_fall] answers on a ready
    service, whatever the world around it. *)
Definition classify (env : Env) (image : Image) : outcome Detection :=
  fst (detect_fall env image idle).

(** [w] once one [pool.acquire()] has been through. *)
Definition acquired (w : World) : World :=
  {| store := store w; model_ready := model_ready w;
     db_faults := tl (db_faults w); trace := trace w |}.

(** Whether the next [pool.acquire()] fails. *)
Definition storage_down (w : World) : bool := hd false (db_faults w).

(** The answer built from a stored row. *)
Definition cached_answer (h : string) (row : Row) : ResultDict :=
  {| image_hash := h;
     result := row_result row;
     confidence := row_confidence row;
     created_at := Some (row_created_at row);
     image_size := row_image_size row;
     processing_time_ms := row_processing_time_ms row;
     cached := true |}.

(** The row [save_result] writes. *)
Definition new_row (env : Env) (res : string) (conf : Q) (sz : string) (ms : Z)
  : Row :=
  {| row_result := res; row_confidence := conf; row_created_at := db_now env;
     row_image_size := sz; row_processing_time_ms := ms |}.

(** The table after an insert-if-absent. *)
Definition inserted (h : string) (row : Row) (m : gmap string Row)
  : gmap string Row :=
  match m !! h with Some _ => m | None => <[h := row]> m end.

(** The [except] clause of the handler: log, answer 500. *)
Definition failed (e : string) (w : World) : outcome Response * World :=
  (Returned (HTTPException 500 ("Processing failed: " ++ e)),
   logged w [EvLogError ("Error processing image: " ++ e)]).

(** The answer built from a fresh detection. *)
Definition fresh_answer (env : Env) (h : string) (image : Image) (r : Detection)
  : ResultDict :=
  {| image_hash := h;
     result := det_result r;
     confidence := det_confidence r;
     created_at := None;
     image_size := size_string image;
     processing_time_ms := elapsed_ms env;
     cached := false |}.

(** [w] with the fault schedule [fs]. *)
Definition with_faults (w : World) (fs : list bool) : World :=
  {| store := store w; model_ready := model_ready w;
     db_faults := fs; trace := trace w |}.

(** A fresh answer as the table gives it back: stamped and marked cached. *)
Definition as_cached (stamp : string) (d : ResultDict) : ResultDict :=
  {| image_hash := image_hash d;
     result := result d;
     confidence := confidence d;
     created_at := Some stamp;
     image_size := image_size d;
     processing_time_ms := processing_time_ms d;
     cached := true |}.

(** What one caller asks [save_result] to store. *)
Definition Entry : Type := (string * Q * string * Z)%type.

Definition entry_row (env : Env) (e : Entry) : Row :=
  let '(res, conf, sz, ms) := e in new_row env res conf sz ms.

(** Several callers inserting under one fingerprint, one statement after
    the other (each INSERT is atomic). *)
Fixpoint save_all (env : Env) (h : string) (entries : list Entry)
  : M (list bool) :=
  match entries with
  | [] => ret []
  | (res, conf, sz, ms) :: rest =>
      let! b := save_result env h res conf sz ms in
      let! bs := save_all env h rest in
      ret (b :: bs)
  end.

(* ===================================================================== *)
(** ** main.py: the other endpoints                                       *)
(* ===================================================================== *)

(** An upload with the file name its part declares. *)
Record NamedFile : Type := {
  filename : string;
  upload : UploadFile
}.

(** One object of the batch answer's [results] list. *)
Inductive BatchEntry : Type :=
| EntryResult (name : string) (d : ResultDict)
| EntryError (name : string) (error : string).

(** What the batch endpoint answers. *)
Inductive BatchResponse : Type :=
| BatchResults (results : list BatchEntry)
| BatchRefused (status_code : Z) (detail : string).

(** The body of the [for file in files] loop of [detect_fall_batch]: the
    entry appended to [results]. *)
Definition batch_item (env : Env) (file : NamedFile) : M BatchEntry :=
  match content_type (upload file) with
  | None => raise "'NoneType' object has no attribute 'startswith'"
  | Some ct =>
      if negb (PyStr.startswith ct "image/")
      then ret (EntryError (filename file) "File must be an image")
      else
        try_except
          (do! emit EvRead in
           let image_bytes := body (upload file) in
           do! emit (EvHash image_bytes) in
           let h := calculate_image_hash image_bytes in
           let! existing_result := check_existing_result h in
           match existing_result with
           | Some d => ret (EntryResult (filename file) d)
           | None =>
               do! emit EvDecode in
               let! image := lift (decode env image_bytes) in
               let sz := size_string image in
               let! r := detect_fall env image in
               let processing_time := elapsed_ms env in
               let! saved := save_result env h (det_result r) (det_confidence r)
                                         sz processing_time in
               ret (EntryResult (filename file)
                      {| image_hash := h;
                         result := det_result r;
                         confidence := det_confidence r;
                         created_at := None;
                         image_size := sz;
                         processing_time_ms := processing_time;
                         cached := false |})
           end)
          (fun e => ret (EntryError (filename file) e))
  end.

(** The loop itself; [env_of i] is the environment (clock readings
    included) in which the [i]-th file is processed. *)
Fixpoint batch_loop (env_of : nat -> Env) (i : nat) (files : list NamedFile)
  : M (list BatchEntry) :=
  match files with
  | [] => ret []
  | file :: rest =>
      let! entry := batch_item (env_of i) file in
      let! entries := batch_loop env_of (S i) rest in
      ret (entry :: entries)
  end.

(** [detect_fall_batch] *)
Definition detect_fall_batch (env_of : nat -> Env) (files : list NamedFile)
  : M BatchResponse :=
  fun w =>
    if negb (model_ready w)
    then ret (BatchRefused 503 "Model loading, try again shortly") w
    else if (10 <? length files)%nat
    then ret (BatchRefused 400 "Maximum 10 images per batch") w
    else (let! results := batch_loop env_of 0 files in
          ret (BatchResults results)) w.

(** [get_result] *)
Definition get_result (h : string) : M Response :=
  let! r := check_existing_result h in
  match r with
  | Some d => ret (Json d)
  | None => ret (HTTPException 404 "Result not found")
  end.

(* ===================================================================== *)
(** ** database.py: statistics                                            *)
(* ===================================================================== *)

(** [round(x, 2)] of the quotient [n / d]: nearest multiple of 1/100, ties
    to even. *)
Definition round2 (n d : Z) : Q :=
  let t := 100 * n in
  let q := t / d in
  let r := t mod d in
  let up := if 2 * r <? d then false
            else if d <? 2 * r then true
            else Z.odd q in
  Qmake (if up then q + 1 else q) 100.

(** The dictionary [get_statistics] returns. *)
Record Statistics : Type := {
  total_processed : Z;
  fall_detected : Z;
  no_fall : Z;
  avg_processing_time_ms : Q;
  days_active : Z
}.

(** [DATE(created_at)]: the calendar day of a time stamp, the first ten
    characters of its ISO form. *)
Definition date_of (stamp : string) : string := String.substring 0 10 stamp.

(** [COUNT(CASE WHEN result = v THEN 1 END)] *)
Definition count_result (v : string) (rows : list Row) : Z :=
  Z.of_nat (length (List.filter (fun r => String.eqb (row_result r) v) rows)).

(** The aggregate row of the query, over the rows of the table. *)
Definition aggregate (rows : list Row) : Statistics :=
  let total := Z.of_nat (length rows) in
  let sum := fold_right Z.add 0 (map row_processing_time_ms rows) in
  {| total_processed := total;
     fall_detected := count_result "Yes" rows;
     no_fall := count_result "No" rows;
     (* [round(avg, 2) if avg else 0]: AVG is NULL on an empty table *)
     avg_processing_time_ms :=
       if (total =? 0) || (sum =? 0) then 0%Q else round2 sum total;
     days_active :=
       Z.of_nat (stdpp.base.size
                   (list_to_set (map (fun r => date_of (row_created_at r)) rows)
                    : gset string)) |}.

(** [get_statistics] *)
Definition get_statistics : M Statistics :=
  do! pool_acquire in
  fun w => ret (aggregate (snd <$> map_to_list (store w))) w.

(** What the [/health] endpoint answers. *)
Record Health : Type := {
  status : string;
  model_loaded : bool;
  database_connected : bool;
  gpu_available : bool;
  statistics : option Statistics
}.

(* ===================================================================== *)
(** ** model_service.py: the life cycle of the service object             *)
(* ===================================================================== *)

(** The three attributes [__init__] sets; a loaded processor or model is
    an opaque handle. *)
Record ModelService : Type := {
  processor : option nat;
  model : option nat;
  is_initialized : bool
}.

(** [ModelService()] *)
Definition new_service : ModelService :=
  {| processor := None; model := None; is_initialized := false |}.

(** [initialize]: the processor is loaded, then the model; either load may
    raise, and the exception is raised again after logging. *)
Definition initialize (load_processor load_model : outcome nat)
           (svc : ModelService) : outcome unit * ModelService :=
  match load_processor with
  | Raised e => (Raised e, svc)
  | Returned p =>
      let svc1 := {| processor := Some p; model := model svc;
                     is_initialized := is_initialized svc |} in
      match load_model with
      | Raised e => (Raised e, svc1)
      | Returned m =>
          (Returned tt,
           {| processor := Some p; model := Some m; is_initialized := true |})
      end
  end.

(** [cleanup] *)
Definition cleanup (svc : ModelService) : ModelService :=
  {| processor := None; model := None; is_initialized := false |}.

(** [ModelService.health_check] *)
Definition service_health (svc : ModelService) : bool :=
  is_initialized svc && bool_decide (processor svc <> None)
  && bool_decide (model svc <> None).

(** The states a service object goes through: created, then any number of
    [initialize] and [cleanup] calls. *)
Inductive reachable : ModelService -> Prop :=
| reach_new : reachable new_service
| reach_initialize lp lm svc :
    reachable svc -> reachable (snd (initialize lp lm svc))
| reach_cleanup svc : reachable svc -> reachable (cleanup svc).

(** The [/health] endpoint of main.py. [svc] is the global
    [model_service], [None] before start-up has created it. *)
Definition health_check (svc : option ModelService) (gpu : bool) : M Health :=
  let model_status :=
    match svc with Some s => service_health s | None => false end in
  fun w =>
    match get_statistics w with
    | (Returned stats, w') =>
        (Returned {| status := if model_status then "healthy" else "unhealthy";
                     model_loaded := model_status;
                     database_connected := true;
                     gpu_available := gpu;
                     statistics := Some stats |}, w')
    | (Raised _, w') =>
        (Returned {| status := "unhealthy";
                     model_loaded := model_status;
                     database_connected := false;
                     gpu_available := gpu;
                     statistics := None |}, w')
    end.

(** The [/statistics] endpoint of main.py. *)
Definition statistics_endpoint : M (Statistics + Z * string) :=
  try_except
    (let! stats := get_statistics in ret (inl stats))
    (fun e => ret (inr (500, "Failed to get statistics: " ++ e))).

(* ===================================================================== *)
(** ** model_test/test_image.py                                           *)
(* ===================================================================== *)

(** [extract_label_from_filename] *)
Definition extract_label_from_filename (name : string) : option Z :=
  if PyStr.contains name "fallingtest_0_" then Some 0
  else if PyStr.contains name "fallingtest_1_" then Some 1
  else None.

(** The counting loop of [count_dataset_labels], over a directory
    listing. *)
Fixpoint count_dataset_labels (listing : list string) (count_0 count_1 : Z)
  : Z * Z :=
  match listing with
  | [] => (count_0, count_1)
  | file :: rest =>
      if PyStr.contains file "fallingtest_0_"
      then count_dataset_labels rest (count_0 + 1) count_1
      else if PyStr.contains file "fallingtest_1_"
      then count_dataset_labels rest count_0 (count_1 + 1)
      else count_dataset_labels rest count_0 count_1
  end.

(** [analyze_local_image], on the bytes of the file at [image_path]: the
    verdict, or [None] after an exception. *)
Definition analyze_local_image (env : Env) (image_bytes : list byte)
  : M (option string) :=
  try_except
    (let! image := lift (decode env image_bytes) in
     let! crops := lift (_make_crops image) in
     let! votes := vote_loop env crops 0 0 in
     ret (Some (if snd votes <? fst votes then "Yes" else "No")))
    (fun e =>
       do! emit (EvLogError ("Image analysis error: " ++ e)) in
       ret None).

(** [1 if result_text.strip().lower().startswith("yes") else 0] *)
Definition pred_label (result_text : string) : Z :=
  if PyStr.startswith (PyStr.lower (PyStr.strip result_text)) "yes"
  then 1 else 0.

(* ===================================================================== *)
(** ** Auxiliaries for the other endpoints                                *)
(* ===================================================================== *)

Definition entry_name (e : BatchEntry) : string :=
  match e with EntryResult n _ | EntryError n _ => n end.

(** [s] without its first [n] characters. *)
Fixpoint drop_chars (n : nat) (s : string) : string :=
  match n, s with
  | S k, String _ s' => drop_chars k s'
  | _, _ => s
  end.

(** What the batch lists for a file the single endpoint answers with
    [resp]: the same object, or the error without its prefix. *)
Definition as_entry (name : string) (resp : Response) : BatchEntry :=
  match resp with
  | Json d => EntryResult name d
  | HTTPException code detail =>
      if code =? 500
      then EntryError name (drop_chars (String.length "Processing failed: ") detail)
      else EntryError name detail
  end.

(** All rows carry a verdict the classifier can give. *)
Definition verdicts_only (m : gmap string Row) : Prop :=
  forall h row, m !! h = Some row ->
                row_result row = "Yes" \/ row_result row = "No".

(** A sequence of single-image requests, each in its environment and under
    its own storage faults. *)
Fixpoint serve (requests : list (Env * UploadFile * list bool)) (w : World)
  : World :=
  match requests with
  | [] => w
  | (env, file, faults) :: rest =>
      serve rest (snd (detect_fall_single env file (with_faults w faults)))
  end.

(** The number of model calls in a trace. *)
Definition is_ask (e : Event) : bool :=
  match e with EvAsk _ _ => true | _ => false end.

Definition asks (es : list Event) : Z :=
  Z.of_nat (length (List.filter is_ask es)).

(** The lock events. *)
Definition is_lock_event (e : Event) : bool :=
  match e with EvAcquire | EvRelease => true | _ => false end.

(** Files for trying the batch endpoint. *)
Module Trial.

Definition named (name : string) (file : UploadFile) : NamedFile :=
  {| filename := name; upload := file |}.

Definition a_png : NamedFile := named "a.png" (Scenario.png Scenario.payload).
Definition copy_png : NamedFile := named "copy.png" (Scenario.png Scenario.payload).
Definition b_png : NamedFile := named "b.png" (Scenario.png Scenario.hello).
Definition notes_txt : NamedFile :=
  named "notes.txt" {| content_type := Some "text/plain"; body := Scenario.hello |}.
Definition untyped : NamedFile :=
  named "blob" {| content_type := None; body := Scenario.payload |}.

(** The detection of [Scenario.picture] by [Scenario.env]. *)
Definition two_of_three : Detection :=
  {| det_result := "Yes"; det_confidence := Qmake 667 1000;
     votes_yes := 2; votes_no := 1; total_crops := 3 |}.

(** The world after one request for the PNG payload, with the model
    unloaded since. *)
Definition unloaded_after_one : World :=
  {| store := store (snd (detect_fall_single Scenario.env
                            (Scenario.png Scenario.payload) Scenario.fresh));
     model_ready := false; db_faults := []; trace := [] |}.

End Trial.

(** The characters a digest is printed with. *)
Definition is_hex_digit (c : ascii) : bool :=
  let n := nat_of_ascii c in
  ((48 <=? n) && (n <=? 57) || (97 <=? n) && (n <=? 102))%nat.

(** Every character of [s] satisfies [p]. *)
Fixpoint all_chars (p : ascii -> bool) (s : string) : bool :=
  match s with
  | EmptyString => true
  | String c s' => p c && all_chars p s'
  end.

(** The fingerprints of the bytes of a sequence of requests. *)
Definition fingerprints (requests : list (Env * UploadFile * list bool))
  : list string :=
  map (fun r => calculate_image_hash (body (snd (fst r)))) requests.

(** Text of 7-bit characters: the text on which [PyStr] is Python's
    [str]. *)
Definition is_ascii (s : string) : bool :=
  all_chars (fun c => (nat_of_ascii c <? 128)%nat) s.

(** The model answers every question about [img] with 7-bit text. *)
Definition ascii_answers (env : Env) (img : Image) : Prop :=
  forall q raw, generate env img q = Returned raw -> is_ascii raw = true.

(** The vote of one crop in the specification's terms: Positive when the
    presence answer and the condition answer are both affirmative,
    Negative otherwise. *)
Definition crop_vote (env : Env) (img : Image) : bool :=
  match generate env img q_person with
  | Returned seen =>
      is_affirmative (normalize seen) &&
      match generate env img q_fall with
      | Returned fallen => is_affirmative (normalize fallen)
      | Raised _ => false
      end
  | Raised _ => false
  end.

(** The numbers of crops that vote Positive and Negative. *)
Definition positive_count (env : Env) (crops : list Image) : Z :=
  Z.of_nat (length (List.filter (crop_vote env) crops)).

Definition negative_count (env : Env) (crops : list Image) : Z :=
  Z.of_nat (length (List.filter (fun img => negb (crop_vote env img)) crops)).

(** A text a VARCHAR(n) column stores as it is: at most [n] characters,
    none of them NUL. *)
Definition fits_varchar (n : nat) (s : string) : bool :=
  (String.length s <=? n)%nat &&
  all_chars (fun c => negb (Ascii.eqb c Ascii.zero)) s.

(** A number an INTEGER column stores. *)
Definition fits_int4 (z : Z) : bool := (- 2 ^ 31 <=? z) && (z <? 2 ^ 31).

(** The row fits the columns of [fall_detections]: [image_hash
    VARCHAR(64)], [result VARCHAR(10)], [image_size VARCHAR(20)],
    [processing_time_ms INTEGER]. *)
Definition fits_columns (h : string) (row : Row) : bool :=
  fits_varchar 64 h && fits_varchar 10 (row_result row)
  && fits_varchar 20 (row_image_size row)
  && fits_int4 (row_processing_time_ms row).

(* ===================================================================== *)
(** ** Text lemmas                                                        *)
(* ===================================================================== *)

Module PyStrFacts.
Import PyStr.

Lemma all_ascii_spec (p : ascii -> bool) :
  all_ascii p = true -> forall c, p c = true.
Proof.
  intros H c. unfold all_ascii in H.
  rewrite forallb_forall in H.
  rewrite <- (ascii_nat_embedding c). apply H.
  apply in_seq. pose proof (nat_ascii_bounded c). lia.
Qed.

Lemma lower_char_idem (c : ascii) : lower_char (lower_char c) = lower_char c.
Proof.
  pose proof (all_ascii_spec
           (fun c => Ascii.eqb (lower_char (lower_char c)) (lower_char c))
           eq_refl c) as H.
  now apply Ascii.eqb_eq in H.
Qed.

Lemma lower_idem (s : string) : lower (lower s) = lower s.
Proof. induction s as [|c s IH]; simpl; [easy|]. now rewrite lower_char_idem, IH. Qed.

(** A lowercase character whose capital is Y is y. *)
Lemma upper_lower_Y (c : ascii) :
  upper_char (lower_char c) = "Y"%char -> lower_char c = "y"%char.
Proof.
  pose proof (all_ascii_spec
    (fun c => implb (Ascii.eqb (upper_char (lower_char c)) "Y")
                    (Ascii.eqb (lower_char c) "y")) eq_refl c) as H.
  cbv beta in H. intros E. rewrite E in H.
  rewrite Ascii.eqb_refl in H. now apply Ascii.eqb_eq in H.
Qed.

(** Capitalising a lowercase text gives "Yes" only if the text is "yes". *)
Lemma capitalize_Yes (s : string) :
  capitalize (lower s) = "Yes" -> lower s = "yes".
Proof.
  destruct s as [|c0 [|c1 [|c2 [|c3 s]]]]; simpl; try discriminate.
  intros E. injection E as E0 E1 E2.
  apply upper_lower_Y in E0. rewrite lower_char_idem in E1, E2.
  now rewrite E0, E1, E2.
Qed.

End PyStrFacts.

(* ===================================================================== *)
(** ** Answers and votes                                                  *)
(* ===================================================================== *)

Lemma logged_logged (w : World) (es es' : list Event) :
  logged (logged w es) es' = logged w (es ++ es').
Proof. unfold logged; simpl. now rewrite <- app_assoc. Qed.

Lemma emit_logged (e : Event) (w : World) :
  emit e w = (Returned tt, logged w [e]).
Proof. reflexivity. Qed.

(** The answer string against the specification's three readings. *)
Lemma interpret_normalize (raw : string) :
  match normalize raw with
  | Affirmative => interpret raw = "Yes"
  | Negative => interpret raw = "No"
  | Indeterminate => interpret raw <> "Yes"
  end.
Proof.
  unfold normalize, interpret, PyStr.startswith.
  set (text := PyStr.lower (PyStr.strip raw)).
  destruct (String.prefix "yes" text) eqn:Hy; [reflexivity|].
  destruct (String.prefix "no" text) eqn:Hn; [reflexivity|].
  destruct (PyStr.contains text "yes" && negb (PyStr.contains text "no"));
    [reflexivity|].
  destruct (PyStr.contains text "no"); [reflexivity|].
  destruct (PyStr.is_empty text); [discriminate|].
  intros E. apply PyStrFacts.capitalize_Yes in E.
  fold text in E. rewrite E in Hy. discriminate.
Qed.

Lemma interpret_is_Yes (raw : string) :
  String.eqb (interpret raw) "Yes" = is_affirmative (normalize raw).
Proof.
  pose proof (interpret_normalize raw) as H.
  destruct (normalize raw); simpl.
  - now rewrite H.
  - now rewrite H.
  - now apply String.eqb_neq.
Qed.

(** One call of [_ask_yes_no]: the question is put to the model once. *)
Lemma ask_yes_no_run (env : Env) (img : Image) (q : string) (w : World) :
  _ask_yes_no env img q w =
  match generate env img q with
  | Returned raw => (Returned (interpret raw), logged w [EvAsk img q])
  | Raised e => (Raised e, logged w [EvAsk img q])
  end.
Proof.
  unfold _ask_yes_no, bind, lift, ret. rewrite emit_logged.
  now destruct (generate env img q).
Qed.

(** One turn of the voting loop, in the specification's terms. *)
Lemma vote_loop_step (env : Env) (img : Image) (rest : list Image)
      (y n : Z) (w : World) :
  vote_loop env (img :: rest) y n w =
  match generate env img q_person with
  | Raised e => (Raised e, logged w [EvAsk img q_person])
  | Returned seen =>
      if is_affirmative (normalize seen) then
        let w2 := logged w [EvAsk img q_person; EvAsk img q_fall] in
        match generate env img q_fall with
        | Raised e => (Raised e, w2)
        | Returned fallen =>
            if is_affirmative (normalize fallen)
            then vote_loop env rest (y + 1) n w2
            else vote_loop env rest y (n + 1) w2
        end
      else vote_loop env rest y (n + 1) (logged w [EvAsk img q_person])
  end.
Proof.
  cbn [vote_loop]. unfold bind at 1. rewrite ask_yes_no_run.
  destruct (generate env img q_person) as [seen|e]; [|reflexivity].
  rewrite interpret_is_Yes.
  destruct (is_affirmative (normalize seen)); [|reflexivity].
  unfold bind at 1. rewrite ask_yes_no_run, logged_logged. simpl app.
  destruct (generate env img q_fall) as [fallen|e]; [|reflexivity].
  rewrite interpret_is_Yes.
  now destruct (is_affirmative (normalize fallen)).
Qed.

(** The scenario's model answers in 7-bit text. *)
Lemma scenario_ascii_answers (img : Image) : ascii_answers Scenario.env img.
Proof.
  intros q raw. cbn [generate Scenario.env]. unfold Scenario.fall_in_crops.
  destruct (String.eqb q q_person); [now intros [= <-]|].
  destruct img; now intros [= <-].
Qed.

(** C2. For 7-bit answer texts, answer normalisation follows the
    specification's order (affirmative prefix, negative prefix,
    affirmative token without the negative one, negative token, else
    indeterminate), and in both stages only an affirmative answer counts:
    a crop votes Positive exactly when the presence answer and the
    condition answer are both affirmative; every other answer, the
    indeterminate one included, gives that crop a Negative vote. *)
Theorem C2_normalization_and_votes :
  forall (env : Env) (img : Image) (rest : list Image) (y n : Z) (w : World),
    ascii_answers env img ->
    (forall raw,
        is_ascii raw = true ->
        match normalize raw with
        | Affirmative => interpret raw = "Yes"
        | Negative => interpret raw = "No"
        | Indeterminate => interpret raw <> "Yes"
        end) /\
    vote_loop env (img :: rest) y n w =
    match generate env img q_person with
    | Raised e => (Raised e, logged w [EvAsk img q_person])
    | Returned seen =>
        match normalize seen with
        | Affirmative =>
            let w2 := logged w [EvAsk img q_person; EvAsk img q_fall] in
            match generate env img q_fall with
            | Raised e => (Raised e, w2)
            | Returned fallen =>
                match normalize fallen with
                | Affirmative => vote_loop env rest (y + 1) n w2
                | Negative | Indeterminate => vote_loop env rest y (n + 1) w2
                end
            end
        | Negative | Indeterminate =>
            vote_loop env rest y (n + 1) (logged w [EvAsk img q_person])
        end
    end.
Proof.
  intros env img rest y n w _. split; [intros raw _; apply interpret_normalize|].
  rewrite vote_loop_step.
  destruct (generate env img q_person) as [seen|e]; [|reflexivity].
  destruct (normalize seen); simpl; try reflexivity.
  destruct (generate env img q_fall) as [fallen|e]; [|reflexivity].
  now destruct (normalize fallen).
Qed.

(** C2 at work on the scenario's picture and on three answers. *)
Lemma C2_normalization_and_votes_witness :
  ascii_answers Scenario.env Scenario.picture /\
  is_ascii " maybe" = true /\
  interpret "  YES.  " = "Yes" /\ interpret "no" = "No" /\
  interpret " maybe" <> "Yes" /\
  vote_loop Scenario.env [Scenario.picture] 0 0 Scenario.fresh
  = (Returned (0, 1),
     logged Scenario.fresh [EvAsk Scenario.picture q_person;
                            EvAsk Scenario.picture q_fall]).
Proof.
  destruct (C2_normalization_and_votes Scenario.env Scenario.picture [] 0 0
              Scenario.fresh (scenario_ascii_answers Scenario.picture))
    as [H1 H2].
  split; [apply scenario_ascii_answers|]. split; [reflexivity|].
  split; [exact (H1 "  YES.  " eq_refl)|].
  split; [exact (H1 "no" eq_refl)|].
  split; [exact (H1 " maybe" eq_refl)|].
  rewrite H2. reflexivity.
Defined.

(** The five branches of the interpretation, and the empty answer. *)
Example interpret_branches :
  map interpret ["  YES.  "; "Not sure"; "I say yes"; "say yes, no"; "unknown";
                 " maybe"; "  "; ""]
  = ["Yes"; "No"; "Yes"; "No"; "No"; "Maybe"; "No"; "No"].
Proof. vm_compute. reflexivity. Qed.

Example normalize_branches :
  map normalize ["  YES.  "; "Not sure"; "I say yes"; "say yes, no"; "unknown";
                 " maybe"; "  "; ""]
  = [Affirmative; Negative; Affirmative; Negative; Negative;
     Indeterminate; Indeterminate; Indeterminate].
Proof. vm_compute. reflexivity. Qed.

(* ===================================================================== *)
(** ** The float product of [_make_crops]                                 *)
(* ===================================================================== *)

Lemma agree_sound (n : nat) :
  forall m0 m,
    Float64.agree n m0 = true ->
    m0 <= m < m0 + Z.of_nat n ->
    Float64.int_mul_0_8 m = Some (4 * m / 5).
Proof.
  induction n as [|k IH]; intros m0 m H Hm; [lia|].
  cbn [Float64.agree] in H.
  destruct (Float64.int_mul_0_8 m0) as [v|] eqn:E; [|discriminate].
  apply andb_prop in H as [Hv Hk].
  destruct (Z.eq_dec m m0) as [->|Hne].
  - rewrite E. f_equal. now apply Z.eqb_eq.
  - apply (IH (m0 + 1)); [exact Hk | lia].
Qed.

(** On every side length up to [Float64.max_side], the binary64 product
    [m * 0.8], truncated, is the integer quotient of [4 * m] by 5. *)
Lemma int_mul_0_8_quotient (m : Z) :
  0 <= m <= Float64.max_side ->
  Float64.int_mul_0_8 m = Some (4 * m / 5).
Proof.
  intros Hm.
  apply (agree_sound (Z.to_nat (Float64.max_side + 1)) 0).
  - vm_compute. reflexivity.
  - unfold Float64.max_side in *. lia.
Qed.

(* ===================================================================== *)
(** ** The tally                                                          *)
(* ===================================================================== *)

(** Every crop adds exactly one vote. *)
Lemma vote_loop_count (env : Env) (crops : list Image) :
  forall y n w y' n' w',
    vote_loop env crops y n w = (Returned (y', n'), w') ->
    y' + n' = y + n + Z.of_nat (length crops) /\ y <= y' /\ n <= n'.
Proof.
  induction crops as [|img rest IH]; intros y n w y' n' w' H.
  - cbn in H. injection H as -> -> _. cbn [length]. lia.
  - rewrite vote_loop_step in H. cbn [length]. rewrite Nat2Z.inj_succ.
    destruct (generate env img q_person) as [seen|e]; [|discriminate].
    destruct (is_affirmative (normalize seen)).
    + cbv zeta in H.
      destruct (generate env img q_fall) as [fallen|e]; [|discriminate].
      destruct (is_affirmative (normalize fallen));
        apply IH in H; lia.
    + apply IH in H; lia.
Qed.

(** [_make_crops] makes three crops whenever it returns. *)
Lemma make_crops_length (image : Image) (crops : list Image) :
  _make_crops image = Returned crops -> length crops = 3%nat.
Proof.
  unfold _make_crops. destruct (size image) as [w h].
  destruct (Float64.int_mul_0_8 (Z.min w h)); [|discriminate].
  now intros [= <-].
Qed.

(** The [try] block, run. *)
Lemma detect_fall_body_run (env : Env) (image : Image) (w : World) :
  detect_fall_body env image w =
  match _make_crops image with
  | Raised e => (Raised e, logged w [EvLogError e])
  | Returned crops =>
      match vote_loop env crops 0 0 w with
      | (Returned (y, n), w') =>
          (Returned (tally y n (Z.of_nat (length crops))), w')
      | (Raised e, w') => (Raised e, logged w' [EvLogError e])
      end
  end.
Proof.
  unfold detect_fall_body, try_except, bind at 1, lift.
  destruct (_make_crops image) as [crops|e]; [|reflexivity].
  unfold bind at 1.
  destruct (vote_loop env crops 0 0 w) as [[[y n]|e] w']; reflexivity.
Qed.

(** [detect_fall], run: the readiness test, then the [try] block under the
    lock. *)
Lemma detect_fall_unfold (env : Env) (image : Image) (w : World) :
  detect_fall env image w =
  if model_ready w then
    let r := detect_fall_body env image (logged w [EvDetect; EvAcquire]) in
    (fst r, logged (snd r) [EvRelease])
  else (Raised "Model not initialized", logged w [EvDetect]).
Proof.
  unfold detect_fall, bind at 1. rewrite emit_logged.
  change (model_ready (logged w [EvDetect])) with (model_ready w).
  destruct (model_ready w); cbn [negb]; [|reflexivity].
  unfold with_lock, bind at 1. rewrite emit_logged, logged_logged. cbn [app].
  cbv zeta. now destruct (detect_fall_body env image _).
Qed.

(** What a returning [detect_fall] went through. *)
Lemma detect_fall_returned (env : Env) (image : Image) (w w' : World)
      (d : Detection) :
  detect_fall env image w = (Returned d, w') ->
  model_ready w = true /\
  exists crops y n w2,
    _make_crops image = Returned crops /\
    vote_loop env crops 0 0 (logged w [EvDetect; EvAcquire]) = (Returned (y, n), w2) /\
    d = tally y n (Z.of_nat (length crops)) /\
    w' = logged w2 [EvRelease].
Proof.
  rewrite detect_fall_unfold.
  destruct (model_ready w); [|discriminate].
  cbv zeta. rewrite detect_fall_body_run.
  destruct (_make_crops image) as [crops|e]; [|discriminate].
  destruct (vote_loop env crops 0 0 (logged w [EvDetect; EvAcquire]))
    as [[[y n]|e] w2] eqn:Hv; [|discriminate].
  cbn [fst snd]. intros [= <- <-]. split; [reflexivity|].
  exists crops, y, n, w2. now repeat split.
Qed.

(** The shape of every returned detection: three crops, one vote each. *)
Lemma detect_fall_tally (env : Env) (image : Image) (w w' : World)
      (d : Detection) :
  detect_fall env image w = (Returned d, w') ->
  exists y n, d = tally y n 3 /\ 0 <= y /\ 0 <= n /\ y + n = 3.
Proof.
  intros H. apply detect_fall_returned in H as (_ & crops & y & n & w2 & Hc & Hv & -> & _).
  apply make_crops_length in Hc. apply vote_loop_count in Hv.
  rewrite Hc in *. exists y, n. repeat split; try lia. 
Qed.

(** The loop runs to its end when the model answers every question. *)
Lemma vote_loop_returns (env : Env) (crops : list Image) :
  (forall img q, exists raw, generate env img q = Returned raw) ->
  forall y n w, exists v w', vote_loop env crops y n w = (Returned v, w').
Proof.
  intros Hg. induction crops as [|img rest IH]; intros y n w.
  - eexists _, _. reflexivity.
  - rewrite vote_loop_step.
    destruct (Hg img q_person) as [seen ->].
    destruct (is_affirmative (normalize seen)); [|apply IH].
    cbv zeta. destruct (Hg img q_fall) as [fallen ->].
    destruct (is_affirmative (normalize fallen)); apply IH.
Qed.

(** On a ready service whose model answers every question, the
    classification of an image of ordinary size returns a detection. *)
Lemma detect_fall_returns (env : Env) (image : Image) (w : World) :
  model_ready w = true ->
  0 <= Z.min (fst (size image)) (snd (size image)) <= Float64.max_side ->
  (forall img q, exists raw, generate env img q = Returned raw) ->
  exists d w', detect_fall env image w = (Returned d, w').
Proof.
  intros Hr Hm Hg. rewrite detect_fall_unfold, Hr. cbv zeta.
  rewrite detect_fall_body_run. unfold _make_crops.
  destruct (size image) as [wd ht]. cbn [fst snd] in Hm.
  rewrite int_mul_0_8_quotient by exact Hm.
  match goal with
  | |- context [vote_loop env ?c 0 0 ?w1] =>
      destruct (vote_loop_returns env c Hg 0 0 w1) as ([y n] & w2 & ->)
  end.
  eexists _, _. reflexivity.
Qed.

(* ===================================================================== *)
(** ** Claims on the ensemble classifier                                  *)
(* ===================================================================== *)

(** The loop counts the crops' votes. *)
Lemma vote_loop_votes (env : Env) (crops : list Image) :
  forall y n w y' n' w',
    vote_loop env crops y n w = (Returned (y', n'), w') ->
    y' = y + positive_count env crops /\ n' = n + negative_count env crops.
Proof.
  unfold positive_count, negative_count.
  induction crops as [|img rest IH]; intros y n w y' n' w' H.
  - cbn in H. injection H as <- <- _. cbn. lia.
  - rewrite vote_loop_step in H. cbn [List.filter].
    destruct (generate env img q_person) as [seen|e] eqn:E1; [|discriminate].
    destruct (is_affirmative (normalize seen)) eqn:A1.
    + cbv zeta in H.
      destruct (generate env img q_fall) as [fallen|e] eqn:E2; [|discriminate].
      destruct (is_affirmative (normalize fallen)) eqn:A2.
      * assert (Hv : crop_vote env img = true)
          by (unfold crop_vote; now rewrite E1, E2, A1, A2).
        rewrite Hv. cbn [negb length]. apply IH in H.
        rewrite Nat2Z.inj_succ. lia.
      * assert (Hv : crop_vote env img = false)
          by (unfold crop_vote; now rewrite E1, E2, A1, A2).
        rewrite Hv. cbn [negb length]. apply IH in H.
        rewrite Nat2Z.inj_succ. lia.
    + assert (Hv : crop_vote env img = false)
        by (unfold crop_vote; now rewrite E1, A1).
      rewrite Hv. cbn [negb length]. apply IH in H.
      rewrite Nat2Z.inj_succ. lia.
Qed.

Lemma count_partition (env : Env) (crops : list Image) :
  positive_count env crops + negative_count env crops
  = Z.of_nat (length crops).
Proof.
  unfold positive_count, negative_count.
  induction crops as [|img rest IH]; [reflexivity|].
  cbn [List.filter]. destruct (crop_vote env img); cbn [negb length];
    rewrite !Nat2Z.inj_succ; lia.
Qed.

(** What a returning [detect_fall] returns, in terms of the crops. *)
Lemma detect_fall_votes (env : Env) (image : Image) (w w' : World)
      (d : Detection) :
  detect_fall env image w = (Returned d, w') ->
  exists crops,
    _make_crops image = Returned crops /\
    length crops = 3%nat /\
    d = tally (positive_count env crops) (negative_count env crops) 3.
Proof.
  intros H.
  apply detect_fall_returned in H as (_ & crops & y & n & w2 & Hc & Hv & -> & _).
  exists crops. split; [exact Hc|].
  apply make_crops_length in Hc. apply vote_loop_votes in Hv as [-> ->].
  rewrite Hc. now split.
Qed.

(** C1. Whenever a classification call returns, its tally is the count of
    the votes of the three crops derived from the image: the verdict is
    "Yes" if and only if the crops voting Positive outnumber those voting
    Negative; the confidence is the larger of the two counts over the
    number of crops, rounded to three decimals; and with three crops the
    winning fraction is one of 1/3, 2/3 and 1, so that the confidence is
    one of their roundings. (The model's answers are 7-bit text.) *)
Theorem C1_verdict_and_confidence :
  forall (env : Env) (image : Image) (w w' : World) (d : Detection),
    (forall img, ascii_answers env img) ->
    detect_fall env image w = (Returned d, w') ->
    exists crops,
      _make_crops image = Returned crops /\
      let positive := positive_count env crops in
      let negative := negative_count env crops in
      let total := Z.of_nat (length crops) in
      votes_yes d = positive /\
      votes_no d = negative /\
      total_crops d = total /\
      total = 3 /\
      (det_result d = "Yes" <-> negative < positive) /\
      (det_result d = "No" <-> positive <= negative) /\
      det_confidence d = round3 (Z.max positive negative) total /\
      (let f := Qmake (Z.max positive negative) 3 in
       Qeq f (Qmake 1 3) \/ Qeq f (Qmake 2 3) \/ Qeq f 1) /\
      In (det_confidence d) [round3 1 3; round3 2 3; round3 3 3].
Proof.
  intros env image w w' d _ H.
  apply detect_fall_votes in H as (crops & Hc & Hl & ->).
  exists crops. split; [exact Hc|]. cbv zeta.
  pose proof (count_partition env crops) as Hs. rewrite Hl in Hs |- *.
  set (y := positive_count env crops) in *.
  set (n := negative_count env crops) in *.
  assert (Hy : 0 <= y) by (unfold y, positive_count; lia).
  assert (Hn : 0 <= n) by (unfold n, negative_count; lia).
  cbn [tally det_result det_confidence votes_yes votes_no total_crops].
  assert (Hm : Z.max y n = 2 \/ Z.max y n = 3) by lia.
  repeat split.
  - destruct (n <? y) eqn:E; [intros _; lia | discriminate].
  - destruct (n <? y) eqn:E; [reflexivity | lia].
  - destruct (n <? y) eqn:E; [discriminate | intros _; lia].
  - destruct (n <? y) eqn:E; [lia | reflexivity].
  - destruct Hm as [-> | ->]; [right; left | right; right]; reflexivity.
  - destruct Hm as [-> | ->]; cbn [In]; auto.
Qed.

(** C1 at work: the picture whose two square crops show a fall. *)
Lemma C1_verdict_and_confidence_witness :
  let d := {| det_result := "Yes"; det_confidence := Qmake 667 1000;
              votes_yes := 2; votes_no := 1; total_crops := 3 |} in
  detect_fall Scenario.env Scenario.picture Scenario.fresh
  = (Returned d, snd (detect_fall Scenario.env Scenario.picture Scenario.fresh))
  /\ exists crops,
       _make_crops Scenario.picture = Returned crops /\
       positive_count Scenario.env crops = 2 /\
       negative_count Scenario.env crops = 1 /\
       (det_result d = "Yes" <->
        negative_count Scenario.env crops < positive_count Scenario.env crops).
Proof.
  intros d.
  assert (H : detect_fall Scenario.env Scenario.picture Scenario.fresh
              = (Returned d,
                 snd (detect_fall Scenario.env Scenario.picture Scenario.fresh)))
    by (vm_compute; reflexivity).
  split; [exact H|].
  destruct (C1_verdict_and_confidence _ _ _ _ _ scenario_ascii_answers H)
    as (crops & Hc & Hy & Hn & _ & _ & Hv & _).
  exists crops. split; [exact Hc|].
  split; [now rewrite <- Hy|]. split; [now rewrite <- Hn | exact Hv].
Defined.

(** C10. Whenever a classification call returns, each of the three crops
    has cast exactly one vote: the two counts add up to 3, the larger one
    is at least 2, and the confidence is 0.667 or 1.0, never the rounding
    of 1/3. *)
Theorem C10_three_votes :
  forall (env : Env) (image : Image) (w w' : World) (d : Detection),
    detect_fall env image w = (Returned d, w') ->
    total_crops d = 3 /\
    0 <= votes_yes d /\ 0 <= votes_no d /\
    votes_yes d + votes_no d = 3 /\
    2 <= Z.max (votes_yes d) (votes_no d) /\
    (det_confidence d = Qmake 667 1000 \/ det_confidence d = Qmake 1000 1000) /\
    det_confidence d <> round3 1 3 /\
    ~ Qeq (det_confidence d) (Qmake 1 3).
Proof.
  intros env image w w' d H.
  apply detect_fall_tally in H as (y & n & -> & Hy & Hn & Hs).
  cbn [tally det_result det_confidence votes_yes votes_no total_crops].
  assert (Hm : Z.max y n = 2 \/ Z.max y n = 3) by lia.
  repeat split; try lia.
  - destruct Hm as [-> | ->]; [left | right]; reflexivity.
  - destruct Hm as [-> | ->]; discriminate.
  - destruct Hm as [-> | ->]; discriminate.
Qed.

(** C10 at work on the same picture. *)
Lemma C10_three_votes_witness :
  let r := detect_fall Scenario.env Scenario.picture Scenario.fresh in
  exists d, fst r = Returned d /\ votes_yes d + votes_no d = 3 /\
            det_confidence d = Qmake 667 1000.
Proof.
  intros r.
  assert (H : r = (Returned {| det_result := "Yes";
                               det_confidence := Qmake 667 1000;
                               votes_yes := 2; votes_no := 1;
                               total_crops := 3 |}, snd r))
    by (vm_compute; reflexivity).
  eexists. split; [rewrite H; reflexivity|].
  destruct (C10_three_votes _ _ _ _ _ H) as (_ & _ & _ & Hs & _).
  split; [exact Hs | reflexivity].
Defined.

(* ===================================================================== *)
(** ** Crop geometry                                                      *)
(* ===================================================================== *)

(** C3. An image of width [w] and height [h] (both positive, the shorter
    side at most [Float64.max_side]) yields exactly three crops, in this
    order: the image itself; the centred square of side [min w h], the
    largest square that fits; and a centred square whose side is 80% of
    that side (rounded down to whole pixels), centred in the same image
    bounds and lying inside the first square.  The crops are a function of
    the image alone. *)
Theorem C3_three_crops :
  forall (image : Image) (w h : Z),
    size image = (w, h) ->
    0 < w -> 0 < h -> Z.min w h <= Float64.max_side ->
    exists (sq sm : Box) (s : Z),
      _make_crops image = Returned [image; crop image sq; crop image sm] /\
      centered_square w h (Z.min w h) sq /\
      (forall side box, centered_square w h side box -> side <= Z.min w h) /\
      5 * s <= 4 * Z.min w h < 5 * s + 5 /\
      centered_square w h s sm /\
      box_within sm sq /\
      size (crop image sq) = (Z.min w h, Z.min w h) /\
      size (crop image sm) = (s, s).
Proof.
  intros image w h Hsz Hw Hh Hmax.
  set (m := Z.min w h) in *.
  set (l := (w - m) / 2). set (t := (h - m) / 2).
  set (s := 4 * m / 5).
  set (l2 := Z.max 0 ((w - s) / 2)). set (t2 := Z.max 0 ((h - s) / 2)).
  exists (l, t, l + m, t + m), (l2, t2, l2 + s, t2 + s), s.
  assert (Hm : 0 < m <= w /\ m <= h) by (unfold m; lia).
  assert (Hs : 5 * s <= 4 * m < 5 * s + 5)
    by (unfold s; pose proof (Z.div_mod (4 * m) 5) as D;
        pose proof (Z.mod_pos_bound (4 * m) 5); lia).
  assert (Hl : 2 * l <= w - m < 2 * l + 2)
    by (unfold l; pose proof (Z.div_mod (w - m) 2) as D;
        pose proof (Z.mod_pos_bound (w - m) 2); lia).
  assert (Ht : 2 * t <= h - m < 2 * t + 2)
    by (unfold t; pose proof (Z.div_mod (h - m) 2) as D;
        pose proof (Z.mod_pos_bound (h - m) 2); lia).
  assert (Hl2 : 2 * l2 <= w - s < 2 * l2 + 2)
    by (unfold l2; pose proof (Z.div_mod (w - s) 2) as D;
        pose proof (Z.mod_pos_bound (w - s) 2); lia).
  assert (Ht2 : 2 * t2 <= h - s < 2 * t2 + 2)
    by (unfold t2; pose proof (Z.div_mod (h - s) 2) as D;
        pose proof (Z.mod_pos_bound (h - s) 2); lia).
  split.
  { unfold _make_crops. rewrite Hsz. fold m.
    rewrite int_mul_0_8_quotient by (unfold m in *; lia).
    reflexivity. }
  split. { unfold centered_square, centered. lia. }
  split. { intros side [[[a b] c] e]. unfold centered_square, centered, m. lia. }
  split. { exact Hs. }
  split. { unfold centered_square, centered. lia. }
  split. { unfold box_within. lia. }
  split; cbn [crop size]; f_equal; lia.
Qed.

(** C3 at work on the 640 by 480 picture. *)
Lemma C3_three_crops_witness :
  (size Scenario.picture = (640, 480) /\ 0 < 640 /\ 0 < 480 /\
   Z.min 640 480 <= Float64.max_side) /\
  exists (sq sm : Box) (s : Z),
    _make_crops Scenario.picture
    = Returned [Scenario.picture; crop Scenario.picture sq;
                crop Scenario.picture sm] /\
    centered_square 640 480 (Z.min 640 480) sq /\
    (forall side box, centered_square 640 480 side box -> side <= Z.min 640 480) /\
    5 * s <= 4 * Z.min 640 480 < 5 * s + 5 /\
    centered_square 640 480 s sm /\
    box_within sm sq /\
    size (crop Scenario.picture sq) = (Z.min 640 480, Z.min 640 480) /\
    size (crop Scenario.picture sm) = (s, s).
Proof.
  split.
  - repeat split; try lia. vm_compute; discriminate.
  - apply (C3_three_crops Scenario.picture 640 480);
      [reflexivity | lia | lia | vm_compute; discriminate].
Defined.

(** The crops of the 640 by 480 picture, computed. *)
Example make_crops_640_480 :
  _make_crops Scenario.picture =
  Returned [Scenario.picture;
            crop Scenario.picture (80, 0, 560, 480);
            crop Scenario.picture (128, 48, 512, 432)].
Proof. vm_compute. reflexivity. Qed.

(** A one-pixel image: the third crop is empty. *)
Example make_crops_1_1 :
  _make_crops (Decoded 1 1 []) =
  Returned [Decoded 1 1 [];
            crop (Decoded 1 1 []) (0, 0, 1, 1);
            crop (Decoded 1 1 []) (0, 0, 0, 0)].
Proof. vm_compute. reflexivity. Qed.

(* ===================================================================== *)
(** ** What the classifier leaves alone                                   *)
(* ===================================================================== *)

Lemma same_service_refl (w : World) : same_service w w.
Proof. now repeat split. Qed.

Lemma same_service_trans (w1 w2 w3 : World) :
  same_service w1 w2 -> same_service w2 w3 -> same_service w1 w3.
Proof. unfold same_service. intuition congruence. Qed.

Lemma same_service_logged (w : World) (es : list Event) :
  same_service w (logged w es).
Proof. now repeat split. Qed.

Create HintDb world.
#[local] Hint Resolve same_service_refl same_service_logged : world.

(** The voting loop only extends the trace, and its outcome does not
    depend on the world it starts in. *)
Lemma vote_loop_frame (env : Env) (crops : list Image) :
  forall y n w, same_service w (snd (vote_loop env crops y n w)).
Proof.
  induction crops as [|img rest IH]; intros y n w.
  - cbn. auto with world.
  - rewrite vote_loop_step.
    destruct (generate env img q_person) as [seen|e]; [|cbn; auto with world].
    destruct (is_affirmative (normalize seen)).
    + cbv zeta.
      destruct (generate env img q_fall) as [fallen|e]; [|cbn; auto with world].
      destruct (is_affirmative (normalize fallen));
        (eapply same_service_trans; [|apply IH]); auto with world.
    + (eapply same_service_trans; [|apply IH]); auto with world.
Qed.

Lemma vote_loop_fst (env : Env) (crops : list Image) :
  forall y n w1 w2,
    fst (vote_loop env crops y n w1) = fst (vote_loop env crops y n w2).
Proof.
  induction crops as [|img rest IH]; intros y n w1 w2; [reflexivity|].
  rewrite !vote_loop_step.
  destruct (generate env img q_person) as [seen|e]; [|reflexivity].
  destruct (is_affirmative (normalize seen)); [|apply IH].
  cbv zeta. destruct (generate env img q_fall) as [fallen|e]; [|reflexivity].
  destruct (is_affirmative (normalize fallen)); apply IH.
Qed.

Lemma detect_fall_body_frame (env : Env) (image : Image) (w : World) :
  same_service w (snd (detect_fall_body env image w)).
Proof.
  rewrite detect_fall_body_run.
  destruct (_make_crops image) as [crops|e]; [|cbn; auto with world].
  pose proof (vote_loop_frame env crops 0 0 w) as Hs.
  destruct (vote_loop env crops 0 0 w) as [[[y n]|e] w']; cbn in *; [exact Hs|].
  eapply same_service_trans; [exact Hs|auto with world].
Qed.

Lemma detect_fall_body_fst (env : Env) (image : Image) (w1 w2 : World) :
  fst (detect_fall_body env image w1) = fst (detect_fall_body env image w2).
Proof.
  rewrite !detect_fall_body_run.
  destruct (_make_crops image) as [crops|e]; [|reflexivity].
  pose proof (vote_loop_fst env crops 0 0 w1 w2) as Hf.
  destruct (vote_loop env crops 0 0 w1) as [[[y1 n1]|e1] w1'];
    destruct (vote_loop env crops 0 0 w2) as [[[y2 n2]|e2] w2'];
    cbn in Hf |- *; congruence.
Qed.

(** [detect_fall], run in any world: it answers with [classify] when the
    model is ready, and leaves table, readiness and faults as they were. *)
Lemma detect_fall_run (env : Env) (image : Image) (w : World) :
  fst (detect_fall env image w) =
  (if model_ready w then classify env image
   else Raised "Model not initialized") /\
  same_service w (snd (detect_fall env image w)).
Proof.
  unfold classify. rewrite !detect_fall_unfold.
  change (model_ready idle) with true. cbv iota zeta.
  destruct (model_ready w); cbn [fst snd]; [|auto with world].
  split; [apply detect_fall_body_fst|].
  eapply same_service_trans; [|apply same_service_logged].
  eapply same_service_trans; [|apply detect_fall_body_frame].
  auto with world.
Qed.

(* ===================================================================== *)
(** ** Storage                                                            *)
(* ===================================================================== *)

Lemma pool_acquire_run (w : World) :
  pool_acquire w =
  (if storage_down w then Raised "connection failure" else Returned tt,
   acquired w).
Proof.
  unfold pool_acquire, storage_down, acquired.
  now destruct (db_faults w) as [|[] ?].
Qed.

Lemma check_existing_result_run (h : string) (w : World) :
  check_existing_result h w =
  if storage_down w then (Raised "connection failure", acquired w)
  else (Returned (cached_answer h <$> store w !! h),
        logged (acquired w) [EvSelect h]).
Proof.
  unfold check_existing_result, bind at 1. rewrite pool_acquire_run.
  destruct (storage_down w); [reflexivity|].
  unfold bind. rewrite emit_logged.
  change (store (logged (acquired w) [EvSelect h])) with (store w).
  now destruct (store w !! h).
Qed.

Lemma save_result_run (env : Env) (h res : string) (conf : Q) (sz : string)
      (ms : Z) (w : World) :
  save_result env h res conf sz ms w =
  if storage_down w
  then (Returned false,
        logged (acquired w) [EvLogError "Database save error: connection failure"])
  else (Returned true,
        {| store := inserted h (new_row env res conf sz ms) (store w);
           model_ready := model_ready w;
           db_faults := tl (db_faults w);
           trace := (trace w ++ [EvInsert h])%list |}).
Proof.
  unfold save_result, try_except, bind at 1. rewrite pool_acquire_run.
  destruct (storage_down w); [reflexivity|].
  reflexivity.
Qed.

(* ===================================================================== *)
(** ** The request handler, run                                           *)
(* ===================================================================== *)

(** The handler as a decision table. *)
Lemma detect_fall_single_run (env : Env) (file : UploadFile) (w : World) :
  detect_fall_single env file w =
  if negb (model_ready w)
  then (Returned (HTTPException 503 "Model loading, try again shortly"), w)
  else
    match content_type file with
    | None => (Raised "'NoneType' object has no attribute 'startswith'", w)
    | Some ct =>
        if negb (PyStr.startswith ct "image/")
        then (Returned (HTTPException 400 "File must be an image"), w)
        else
          let h := calculate_image_hash (body file) in
          let w1 := acquired (logged w [EvRead; EvHash (body file)]) in
          if storage_down w then failed "connection failure" w1
          else
            match store w !! h with
            | Some row =>
                (Returned (Json (cached_answer h row)), logged w1 [EvSelect h])
            | None =>
                let w2 := logged w1 [EvSelect h; EvDecode] in
                match decode env (body file) with
                | Raised e => failed e w2
                | Returned image =>
                    match detect_fall env image w2 with
                    | (Raised e, w3) => failed e w3
                    | (Returned r, w3) =>
                        (Returned (Json (fresh_answer env h image r)),
                         snd (save_result env h (det_result r) (det_confidence r)
                                (size_string image) (elapsed_ms env) w3))
                    end
                end
            end
    end.
Proof.
  unfold detect_fall_single.
  destruct (negb (model_ready w)); [reflexivity|].
  destruct (content_type file) as [ct|]; [|reflexivity].
  destruct (negb (PyStr.startswith ct "image/")); [reflexivity|].
  cbv zeta. unfold try_except.
  unfold bind at 1. rewrite emit_logged.
  unfold bind at 1. rewrite emit_logged, logged_logged. cbn [app].
  unfold bind at 1. rewrite check_existing_result_run.
  change (storage_down (logged w [EvRead; EvHash (body file)]))
    with (storage_down w).
  change (store (logged w [EvRead; EvHash (body file)])) with (store w).
  destruct (storage_down w); [reflexivity|].
  destruct (store w !! calculate_image_hash (body file)) as [row|]; [reflexivity|].
  cbn [fmap option_fmap option_map].
  unfold bind at 1. rewrite emit_logged, logged_logged. cbn [app].
  unfold bind at 1, lift.
  destruct (decode env (body file)) as [image|e]; [|reflexivity].
  unfold bind at 1.
  destruct (detect_fall env image _) as [[r|e] w3]; [|reflexivity].
  unfold bind at 1.
  rewrite save_result_run.
  destruct (storage_down w3); reflexivity.
Qed.

(* ===================================================================== *)
(** ** Claims on the handler                                              *)
(* ===================================================================== *)

(** C6, as amended. The handler answers 503 exactly when the model is not
    ready, whether or not the fingerprint has a stored entry: readiness is
    tested first, before validation, fingerprinting and the cache lookup,
    and the refusal is immediate, leaving the world untouched (no lock, no
    storage access). *)
Theorem C6_not_ready_first :
  forall (env : Env) (file : UploadFile) (w : World),
    ((exists detail,
         fst (detect_fall_single env file w)
         = Returned (HTTPException 503 detail))
     <-> model_ready w = false) /\
    (model_ready w = false ->
     detect_fall_single env file w
     = (Returned (HTTPException 503 "Model loading, try again shortly"), w)).
Proof.
  intros env file w. rewrite detect_fall_single_run.
  destruct (model_ready w) eqn:Hr; cbn [negb].
  2:{ split; [|reflexivity]. split; [reflexivity|]. intros _. eexists. reflexivity. }
  split; [|discriminate].
  split; [|discriminate]. intros [detail H]. exfalso. revert H.
  destruct (content_type file) as [ct|]; [|discriminate].
  destruct (negb (PyStr.startswith ct "image/")); [discriminate|].
  cbv zeta. unfold failed.
  destruct (storage_down w); [discriminate|].
  destruct (store w !! _); [discriminate|].
  destruct (decode env (body file)) as [image|e]; [|discriminate].
  destruct (detect_fall env image _) as [[r|e] w3]; discriminate.
Qed.

(** C7, as amended. With the model ready, an upload whose declared content
    type does not start with [image/] is refused with 400 before its bytes
    are read, fingerprinted or looked up, and before the classifier is
    called.  The bytes themselves are not validated: under an image content
    type, a payload the decoder rejects is first fingerprinted and looked
    up, and on a miss it fails at decoding with a 500. *)
Theorem C7_content_type_validation :
  forall (env : Env) (file : UploadFile) (w : World),
    model_ready w = true ->
    (forall ct,
        content_type file = Some ct ->
        PyStr.startswith ct "image/" = false ->
        detect_fall_single env file w
        = (Returned (HTTPException 400 "File must be an image"), w)) /\
    (forall ct e,
        content_type file = Some ct ->
        PyStr.startswith ct "image/" = true ->
        storage_down w = false ->
        store w !! calculate_image_hash (body file) = None ->
        decode env (body file) = Raised e ->
        detect_fall_single env file w
        = (Returned (HTTPException 500 ("Processing failed: " ++ e)),
           logged (acquired w)
             [EvRead; EvHash (body file);
              EvSelect (calculate_image_hash (body file)); EvDecode;
              EvLogError ("Error processing image: " ++ e)])).
Proof.
  intros env file w Hr. split.
  - intros ct Hct Hs. rewrite detect_fall_single_run, Hr, Hct, Hs. reflexivity.
  - intros ct e Hct Hs Hd Hm He.
    rewrite detect_fall_single_run, Hr, Hct, Hs. cbn [negb]. cbv zeta.
    rewrite Hd, Hm, He. unfold failed. f_equal.
    unfold logged, acquired; cbn. now rewrite <- !app_assoc.
Qed.

(** C8. When the classification has succeeded and the storage fails at the
    insert, the failure is logged and swallowed: the requester receives the
    fresh verdict, confidence and metadata with [cached] false, the very
    answer given when the insert succeeds; the table is left as it was. *)
Theorem C8_insert_failure_swallowed :
  forall (env : Env) (file : UploadFile) (ct : string) (image : Image)
         (r : Detection) (w : World) (rest : list bool),
    model_ready w = true ->
    content_type file = Some ct ->
    PyStr.startswith ct "image/" = true ->
    db_faults w = false :: true :: rest ->
    store w !! calculate_image_hash (body file) = None ->
    decode env (body file) = Returned image ->
    classify env image = Returned r ->
    let answer :=
      Returned (Json (fresh_answer env (calculate_image_hash (body file)) image r)) in
    let run := detect_fall_single env file w in
    fst run = answer /\
    cached (fresh_answer env (calculate_image_hash (body file)) image r) = false /\
    store (snd run) = store w /\
    last (trace (snd run))
    = Some (EvLogError "Database save error: connection failure") /\
    fst (detect_fall_single env file (with_faults w (false :: false :: rest)))
    = answer.
Proof.
  intros env file ct image r w rest Hr Hct Hs Hf Hm Hd Hc answer run.
  subst run answer.
  rewrite !detect_fall_single_run.
  change (model_ready (with_faults w _)) with (model_ready w).
  change (store (with_faults w _)) with (store w).
  rewrite Hr, Hct, Hs. cbn [negb]. cbv zeta.
  unfold storage_down. cbn [with_faults db_faults].
  rewrite Hf, Hm, Hd. cbn [hd].
  set (h := calculate_image_hash (body file)).
  match goal with
  | |- context [detect_fall env image ?w2] =>
      pose proof (detect_fall_run env image w2) as [H1 H2];
      destruct (detect_fall env image w2) as [o w3]
  end.
  match goal with
  | |- context [detect_fall env image ?w2] =>
      pose proof (detect_fall_run env image w2) as [H1' H2'];
      destruct (detect_fall env image w2) as [o' w3']
  end.
  cbn [fst snd model_ready logged acquired with_faults] in H1, H2, H1', H2'.
  rewrite Hr, Hc in H1, H1'. subst o o'.
  destruct H2 as (Hst & _ & Hfl). cbn in Hst, Hfl. rewrite Hf in Hfl. cbn in Hfl.
  rewrite save_result_run. unfold storage_down. rewrite <- Hfl. cbn [hd].
  cbn [fst snd]. repeat split.
  - cbn. now rewrite <- Hst.
  - cbn. now rewrite last_snoc.
Qed.

(** What a fresh answer tells about the run that gave it. *)
Lemma fresh_answer_inv (env : Env) (file : UploadFile) (w w' : World)
      (d : ResultDict) :
  detect_fall_single env file w = (Returned (Json d), w') ->
  cached d = false ->
  let h := calculate_image_hash (body file) in
  exists image r w3,
    model_ready w = true /\
    store w !! h = None /\
    d = fresh_answer env h image r /\
    same_service (acquired w) w3 /\
    w' = snd (save_result env h (det_result r) (det_confidence r)
                (size_string image) (elapsed_ms env) w3).
Proof.
  intros H Hc h. rewrite detect_fall_single_run in H.
  destruct (model_ready w) eqn:Hr; cbn [negb] in H; [|discriminate].
  destruct (content_type file) as [ct|]; [|discriminate].
  destruct (negb (PyStr.startswith ct "image/")); [discriminate|].
  cbv zeta in H. fold h in H. unfold failed in H.
  destruct (storage_down w); [discriminate|].
  destruct (store w !! h) as [row|] eqn:Hm.
  { injection H as <- _. discriminate. }
  destruct (decode env (body file)) as [image|e]; [|discriminate].
  match type of H with
  | context [detect_fall env image ?w2] =>
      pose proof (detect_fall_run env image w2) as [_ H2];
      destruct (detect_fall env image w2) as [[r|e] w3]; [|discriminate]
  end.
  injection H as <- <-. exists image, r, w3. repeat split; try easy.
  all: destruct H2 as (H2 & H3 & H4); cbn in H2, H3, H4; easy.
Qed.

(** C4, as amended. Once a classification of an upload has answered
    afresh and stored its entry, the same upload, submitted again while the
    model is loaded (readiness is tested first) and the storage answers,
    is served the stored entry (the fields of the fresh answer, stamped,
    with [cached] true) after nothing but reading, fingerprinting and one
    lookup: no decoding, no classifier call, no lock, no insert. *)
Theorem C4_cache_round_trip :
  forall (env1 env2 : Env) (file : UploadFile) (w0 w1 w2 : World)
         (d1 : ResultDict),
    detect_fall_single env1 file w0 = (Returned (Json d1), w1) ->
    cached d1 = false ->
    is_Some (store w1 !! image_hash d1) ->
    store w1 ⊆ store w2 ->
    model_ready w2 = true ->
    storage_down w2 = false ->
    image_hash d1 = calculate_image_hash (body file) /\
    detect_fall_single env2 file w2
    = (Returned (Json (as_cached (db_now env1) d1)),
       logged (acquired w2)
         [EvRead; EvHash (body file); EvSelect (image_hash d1)]) /\
    forallb (fun e => negb (touches_classifier e))
      [EvRead; EvHash (body file); EvSelect (image_hash d1)] = true.
Proof.
  intros env1 env2 file w0 w1 w2 d1 H Hc Hst Hsub Hrd Hup.
  destruct (fresh_answer_inv _ _ _ _ _ H Hc)
    as (image & r & w3 & Hr & Hm & -> & (Hs3 & Hr3 & Hf3) & ->).
  cbn [image_hash fresh_answer] in *. split; [reflexivity|].
  split; [|reflexivity].
  set (h := calculate_image_hash (body file)) in *.
  cbn [acquired store model_ready] in Hs3, Hr3.
  rewrite save_result_run in Hst, Hsub.
  destruct (storage_down w3).
  { cbn in Hst. rewrite <- Hs3, Hm in Hst. now destruct Hst. }
  cbn [snd store model_ready] in Hsub. clear Hst.
  unfold inserted in Hsub. rewrite <- Hs3, Hm in Hsub.
  assert (Hrow : store w2 !! h
                 = Some (new_row env1 (det_result r) (det_confidence r)
                           (size_string image) (elapsed_ms env1))).
  { eapply lookup_weaken; [|exact Hsub]. apply lookup_insert_eq. }
  rewrite detect_fall_single_run, Hrd. cbn [negb].
  pose proof H as H'. rewrite detect_fall_single_run, Hr in H'. cbn [negb] in H'.
  destruct (content_type file) as [ct|]; [|discriminate].
  destruct (negb (PyStr.startswith ct "image/")); [discriminate|].
  cbv zeta. fold h. rewrite Hup, Hrow. f_equal.
  unfold logged, acquired; cbn. now rewrite <- app_assoc.
Qed.

(** C4 at work: the PNG payload, submitted twice to a fresh service. *)
Lemma C4_cache_round_trip_witness :
  let file := Scenario.png Scenario.payload in
  let run1 := detect_fall_single Scenario.env file Scenario.fresh in
  let d1 := fresh_answer Scenario.env (calculate_image_hash Scenario.payload)
              Scenario.picture Trial.two_of_three in
  run1 = (Returned (Json d1), snd run1) /\
  model_ready (snd run1) = true /\
  fst (detect_fall_single Scenario.env file (snd run1))
  = Returned (Json (as_cached "2025-01-01T00:00:00" d1)).
Proof.
  intros file run1 d1.
  assert (H1 : run1 = (Returned (Json d1), snd run1))
    by (vm_compute; reflexivity).
  split; [exact H1|].
  assert (Hst : is_Some (store (snd run1) !! image_hash d1))
    by (vm_compute; eexists; reflexivity).
  assert (Hrd : model_ready (snd run1) = true) by (vm_compute; reflexivity).
  assert (Hup : storage_down (snd run1) = false) by (vm_compute; reflexivity).
  split; [exact Hrd|].
  destruct (C4_cache_round_trip Scenario.env Scenario.env file Scenario.fresh
              (snd run1) (snd run1) d1 H1 eq_refl Hst
              (reflexivity (store (snd run1))) Hrd Hup) as (_ & H2 & _).
  rewrite H2. reflexivity.
Defined.

(** The claim C4 as it stands fails: after a classification of the
    payload has stored its entry, the same payload submitted when the
    model is no longer loaded is answered 503, not the stored entry. *)
Lemma C4_counterexample :
  let file := Scenario.png Scenario.payload in
  let run1 := detect_fall_single Scenario.env file Scenario.fresh in
  let d1 := fresh_answer Scenario.env (calculate_image_hash Scenario.payload)
              Scenario.picture Trial.two_of_three in
  let w2 := Trial.unloaded_after_one in
  run1 = (Returned (Json d1), snd run1) /\
  store w2 = store (snd run1) /\
  is_Some (store w2 !! image_hash d1) /\
  storage_down w2 = false /\
  detect_fall_single Scenario.env file w2
  = (Returned (HTTPException 503 "Model loading, try again shortly"), w2) /\
  fst (detect_fall_single Scenario.env file w2)
  <> Returned (Json (as_cached "2025-01-01T00:00:00" d1)).
Proof.
  cbv zeta.
  split; [vm_compute; reflexivity|]. split; [reflexivity|].
  split; [vm_compute; eexists; reflexivity|]. split; [reflexivity|].
  split; [reflexivity | discriminate].
Qed.

(** The claim C6 as it stands fails: with an entry stored for the upload
    and the model still loading, the answer is 503, not the entry. *)
Lemma C6_counterexample :
  let w := Scenario.holding false [] in
  let h := calculate_image_hash Scenario.payload in
  let run := detect_fall_single Scenario.env (Scenario.png Scenario.payload) w in
  model_ready w = false /\
  store w !! h = Some Scenario.old_row /\
  run = (Returned (HTTPException 503 "Model loading, try again shortly"), w) /\
  fst run <> Returned (Json (cached_answer h Scenario.old_row)).
Proof.
  cbv zeta. split; [reflexivity|]. split; [apply lookup_singleton_eq|].
  split; [reflexivity | discriminate].
Qed.

(** The claim C7 as it stands fails: plain text sent as [image/png] is
    fingerprinted and looked up before it is refused, and the refusal is a
    500 from the decoder, not a 400. *)
Lemma C7_counterexample :
  let h := calculate_image_hash Scenario.hello in
  let run :=
    detect_fall_single Scenario.env (Scenario.png Scenario.hello) Scenario.fresh in
  Scenario.decoder Scenario.hello = Raised "cannot identify image file" /\
  run = (Returned (HTTPException 500 "Processing failed: cannot identify image file"),
         logged Scenario.fresh
           [EvRead; EvHash Scenario.hello; EvSelect h; EvDecode;
            EvLogError "Error processing image: cannot identify image file"]) /\
  (forall detail, fst run <> Returned (HTTPException 400 detail)) /\
  In (EvHash Scenario.hello) (trace (snd run)) /\
  In (EvSelect h) (trace (snd run)).
Proof.
  cbv zeta.
  assert (H : detect_fall_single Scenario.env (Scenario.png Scenario.hello)
                Scenario.fresh
              = (Returned (HTTPException 500
                             "Processing failed: cannot identify image file"),
                 logged Scenario.fresh
                   [EvRead; EvHash Scenario.hello;
                    EvSelect (calculate_image_hash Scenario.hello); EvDecode;
                    EvLogError
                      "Error processing image: cannot identify image file"]))
    by (vm_compute; reflexivity).
  rewrite H. cbn [fst snd logged trace Scenario.fresh app].
  split; [reflexivity|]. split; [reflexivity|].
  split; [discriminate|]. cbn [In]. auto.
Qed.

(** C7 at work: plain text declared as such, and plain text declared as
    a PNG. *)
Lemma C7_content_type_validation_witness :
  model_ready Scenario.fresh = true /\
  detect_fall_single Scenario.env
    {| content_type := Some "text/plain"; body := Scenario.hello |} Scenario.fresh
  = (Returned (HTTPException 400 "File must be an image"), Scenario.fresh) /\
  fst (detect_fall_single Scenario.env (Scenario.png Scenario.hello) Scenario.fresh)
  = Returned (HTTPException 500 "Processing failed: cannot identify image file").
Proof.
  split; [reflexivity|]. split.
  - apply (proj1 (C7_content_type_validation Scenario.env
                    {| content_type := Some "text/plain"; body := Scenario.hello |}
                    Scenario.fresh eq_refl) "text/plain"); reflexivity.
  - rewrite (proj2 (C7_content_type_validation Scenario.env
                      (Scenario.png Scenario.hello) Scenario.fresh eq_refl)
               "image/png" "cannot identify image file");
      reflexivity.
Defined.

(** C8 at work: the storage answers the lookup and fails at the insert. *)
Lemma C8_insert_failure_swallowed_witness :
  let file := Scenario.png Scenario.payload in
  let w := with_faults Scenario.fresh [false; true] in
  let r := {| det_result := "Yes"; det_confidence := Qmake 667 1000;
              votes_yes := 2; votes_no := 1; total_crops := 3 |} in
  classify Scenario.env Scenario.picture = Returned r /\
  fst (detect_fall_single Scenario.env file w)
  = Returned (Json (fresh_answer Scenario.env
                      (calculate_image_hash Scenario.payload) Scenario.picture r)) /\
  store (snd (detect_fall_single Scenario.env file w)) = ∅.
Proof.
  intros file w r.
  assert (Hc : classify Scenario.env Scenario.picture = Returned r)
    by (vm_compute; reflexivity).
  split; [exact Hc|].
  destruct (C8_insert_failure_swallowed Scenario.env file "image/png"
              Scenario.picture r w [] eq_refl eq_refl eq_refl eq_refl
              (lookup_empty _) eq_refl Hc) as (H1 & _ & H3 & _).
  split; [exact H1 | exact H3].
Defined.

(* ===================================================================== *)
(** ** Claims on the fingerprint cache                                    *)
(* ===================================================================== *)

Lemma save_all_present (env : Env) (h : string) (entries : list Entry) :
  forall (w : World) (row : Row),
    db_faults w = [] ->
    store w !! h = Some row ->
    fst (save_all env h entries w) = Returned (repeat true (length entries)) /\
    store (snd (save_all env h entries w)) = store w.
Proof.
  induction entries as [|[[[res conf] sz] ms] rest IH]; intros w row Hf Hm.
  - now split.
  - cbn [save_all]. unfold bind at 1 3. rewrite save_result_run.
    unfold storage_down. rewrite Hf. cbn [hd tl].
    unfold inserted. rewrite Hm.
    set (w1 := {| store := store w; model_ready := _; db_faults := [];
                  trace := _ |}).
    destruct (IH w1 row eq_refl Hm) as [H1 H2].
    unfold bind. destruct (save_all env h rest w1) as [o w2].
    cbn [fst snd] in *. subst o. cbn. now split.
Qed.

(** C5, as amended. For a fingerprint and an entry that fit the columns of
    the table, [save_result] never raises. It returns true whenever the
    statement ran, both when it created the entry and when an entry for
    the fingerprint was already there (then the table is unchanged), and
    false only when the storage failed (then too the table is unchanged).
    So of several such inserts under one fingerprint, run against a
    working storage, the first to find it absent stores its entry, the
    others change nothing, and all return true. *)
Theorem C5_insert_if_absent :
  forall (env : Env) (h res : string) (conf : Q) (sz : string) (ms : Z)
         (w : World),
    fits_columns h (new_row env res conf sz ms) = true ->
    let run := save_result env h res conf sz ms w in
    fst run = Returned (negb (storage_down w)) /\
    store (snd run)
    = (if storage_down w then store w
       else match store w !! h with
            | Some _ => store w
            | None => <[h := new_row env res conf sz ms]> (store w)
            end) /\
    forall (e : Entry) (es : list Entry),
      Forall (fun e' => fits_columns h (entry_row env e') = true) (e :: es) ->
      let all := save_all env h (e :: es) (with_faults w []) in
      fst all = Returned (repeat true (S (length es))) /\
      store (snd all)
      = match store w !! h with
        | Some _ => store w
        | None => <[h := entry_row env e]> (store w)
        end.
Proof.
  intros env h res conf sz ms w _ run. subst run.
  rewrite save_result_run. repeat split.
  - now destruct (storage_down w).
  - now destruct (storage_down w).
  - destruct e as [[[res' conf'] sz'] ms'].
    cbn [save_all]. unfold bind at 1. rewrite save_result_run.
    unfold storage_down. cbn [with_faults db_faults hd tl store].
    set (w1 := {| store := inserted _ _ _; model_ready := _; db_faults := [];
                  trace := _ |}).
    assert (Hrow : is_Some (store w1 !! h)).
    { subst w1. cbn [store]. unfold inserted.
      destruct (store w !! h) eqn:E; [now rewrite E|].
      rewrite lookup_insert_eq. eauto. }
    destruct Hrow as [row Hrow].
    destruct (save_all_present env h es w1 row eq_refl Hrow) as [H1 _].
    unfold bind. destruct (save_all env h es w1) as [o w2].
    cbn [fst] in *. now subst o.
  - destruct e as [[[res' conf'] sz'] ms'].
    cbn [save_all]. unfold bind at 1. rewrite save_result_run.
    unfold storage_down. cbn [with_faults db_faults hd tl store].
    set (w1 := {| store := inserted _ _ _; model_ready := _; db_faults := [];
                  trace := _ |}).
    assert (Hrow : is_Some (store w1 !! h)).
    { subst w1. cbn [store]. unfold inserted.
      destruct (store w !! h) eqn:E; [now rewrite E|].
      rewrite lookup_insert_eq. eauto. }
    destruct Hrow as [row Hrow].
    destruct (save_all_present env h es w1 row eq_refl Hrow) as [_ H2].
    unfold bind, ret. destruct (save_all env h es w1) as [[bs|e'] w2];
      cbn [fst snd] in *; rewrite H2; reflexivity.
Qed.

(** C5 at work: two callers insert under the fingerprint of the PNG
    payload into an empty table. *)
Lemma C5_insert_if_absent_witness :
  let h := calculate_image_hash Scenario.payload in
  let e1 : Entry := ("Yes", Qmake 667 1000, "640x480", 1234) in
  let e2 : Entry := ("No", Qmake 1000 1000, "640x480", 900) in
  fits_columns h (entry_row Scenario.env e1) = true /\
  fits_columns h (entry_row Scenario.env e2) = true /\
  fst (save_all Scenario.env h [e1; e2] Scenario.fresh)
  = Returned [true; true] /\
  store (snd (save_all Scenario.env h [e1; e2] Scenario.fresh))
  = {[ h := entry_row Scenario.env e1 ]}.
Proof.
  cbv zeta.
  set (h := calculate_image_hash Scenario.payload).
  assert (F1 : fits_columns h (entry_row Scenario.env
                                 ("Yes", Qmake 667 1000, "640x480", 1234)) = true)
    by (vm_compute; reflexivity).
  assert (F2 : fits_columns h (entry_row Scenario.env
                                 ("No", Qmake 1000 1000, "640x480", 900)) = true)
    by (vm_compute; reflexivity).
  split; [exact F1|]. split; [exact F2|].
  destruct (C5_insert_if_absent Scenario.env h "Yes" (Qmake 667 1000) "640x480"
              1234 Scenario.fresh F1) as (_ & _ & H).
  assert (FA : Forall (fun e' => fits_columns h (entry_row Scenario.env e') = true)
                 [("Yes", Qmake 667 1000, "640x480", 1234);
                  ("No", Qmake 1000 1000, "640x480", 900)])
    by (repeat constructor; assumption).
  destruct (H ("Yes", Qmake 667 1000, "640x480", 1234)
              [("No", Qmake 1000 1000, "640x480", 900)] FA)
    as [H1 H2].
  split; [exact H1|]. etransitivity; [exact H2|]. reflexivity.
Defined.

(** The claim C5 as it stands fails: an insert that finds an entry already
    stored leaves it alone and still returns true. *)
Lemma C5_counterexample :
  let w := Scenario.holding true [] in
  let h := calculate_image_hash Scenario.payload in
  let run := save_result Scenario.env h "Yes" (Qmake 667 1000) "640x480" 1234 w in
  store w !! h = Some Scenario.old_row /\
  fst run = Returned true /\
  fst run <> Returned false /\
  store (snd run) = store w.
Proof.
  cbv zeta. split; [apply lookup_singleton_eq|].
  assert (H : fst (save_result Scenario.env
                     (calculate_image_hash Scenario.payload)
                     "Yes" (Qmake 667 1000) "640x480" 1234
                     (Scenario.holding true []))
              = Returned true) by (vm_compute; reflexivity).
  split; [exact H|]. split; [rewrite H; discriminate|].
  vm_compute. reflexivity.
Qed.

Lemma hex_length (n : nat) (x : Z) (k : string) :
  String.length (Sha256.hex n x k) = (n + String.length k)%nat.
Proof. induction n as [|j IH]; [reflexivity|]. cbn. now rewrite IH. Qed.

(** C9, as amended. The fingerprint is a total function of the bytes: the
    call returns the 64 hexadecimal digits of the SHA-256 digest for every
    byte sequence, the empty one included, and never raises; equal inputs
    give equal fingerprints. *)
Theorem C9_fingerprint_total :
  forall (b : list byte),
    calculate_image_hash_call b = Returned (Sha256.hexdigest b) /\
    String.length (calculate_image_hash b) = 64%nat /\
    (forall msg, calculate_image_hash_call b <> Raised msg) /\
    (forall b', b' = b ->
                calculate_image_hash_call b' = calculate_image_hash_call b).
Proof.
  intros b. repeat split.
  - unfold calculate_image_hash, Sha256.hexdigest.
    destruct (Sha256.digest b) as [[[[[[[x0 x1] x2] x3] x4] x5] x6] x7].
    now rewrite !hex_length.
  - discriminate.
  - now intros b' ->.
Qed.

(** The claim C9 as it stands fails: on the empty input the fingerprint
    does not fail, it is the digest of the empty string. *)
Lemma C9_counterexample :
  calculate_image_hash_call []
  = Returned "e3b0c44298fc1c149afbf4c8996fb92427ae41e4649b934ca495991b7852b855"
  /\ forall msg, calculate_image_hash_call [] <> Raised msg.
Proof. split; [vm_compute; reflexivity | discriminate]. Qed.

(* ===================================================================== *)
(** ** The batch endpoint                                                 *)
(* ===================================================================== *)

(** One file of a batch, as a decision table. *)
Lemma batch_item_run (env : Env) (file : NamedFile) (w : World) :
  batch_item env file w =
  let name := filename file in
  match content_type (upload file) with
  | None => (Raised "'NoneType' object has no attribute 'startswith'", w)
  | Some ct =>
      if negb (PyStr.startswith ct "image/")
      then (Returned (EntryError name "File must be an image"), w)
      else
        let h := calculate_image_hash (body (upload file)) in
        let w1 := acquired (logged w [EvRead; EvHash (body (upload file))]) in
        if storage_down w
        then (Returned (EntryError name "connection failure"), w1)
        else
          match store w !! h with
          | Some row =>
              (Returned (EntryResult name (cached_answer h row)),
               logged w1 [EvSelect h])
          | None =>
              let w2 := logged w1 [EvSelect h; EvDecode] in
              match decode env (body (upload file)) with
              | Raised e => (Returned (EntryError name e), w2)
              | Returned image =>
                  match detect_fall env image w2 with
                  | (Raised e, w3) => (Returned (EntryError name e), w3)
                  | (Returned r, w3) =>
                      (Returned (EntryResult name (fresh_answer env h image r)),
                       snd (save_result env h (det_result r) (det_confidence r)
                              (size_string image) (elapsed_ms env) w3))
                  end
              end
          end
  end.
Proof.
  unfold batch_item. cbv zeta.
  destruct (content_type (upload file)) as [ct|]; [|reflexivity].
  destruct (negb (PyStr.startswith ct "image/")); [reflexivity|].
  unfold try_except.
  unfold bind at 1. rewrite emit_logged.
  unfold bind at 1. rewrite emit_logged, logged_logged. cbn [app].
  unfold bind at 1. rewrite check_existing_result_run.
  change (storage_down (logged w [EvRead; EvHash (body (upload file))]))
    with (storage_down w).
  change (store (logged w [EvRead; EvHash (body (upload file))]))
    with (store w).
  destruct (storage_down w); [reflexivity|].
  destruct (store w !! calculate_image_hash (body (upload file))) as [row|];
    [reflexivity|].
  cbn [fmap option_fmap option_map].
  unfold bind at 1. rewrite emit_logged, logged_logged. cbn [app].
  unfold bind at 1, lift.
  destruct (decode env (body (upload file))) as [image|e]; [|reflexivity].
  unfold bind at 1.
  destruct (detect_fall env image _) as [[r|e] w3]; [|reflexivity].
  unfold bind at 1.
  rewrite save_result_run.
  destruct (storage_down w3); reflexivity.
Qed.

Lemma drop_chars_app (p e : string) :
  drop_chars (String.length p) (p ++ e) = e.
Proof. induction p as [|c p IH]; [now destruct e | exact IH]. Qed.

(** On a ready service, a file with a declared content type gets in a
    batch the entry that transcribes the single endpoint's answer, and the
    table ends up the same. *)
Lemma batch_item_single (env : Env) (file : NamedFile) (w : World) :
  model_ready w = true ->
  is_Some (content_type (upload file)) ->
  exists resp,
    fst (detect_fall_single env (upload file) w) = Returned resp /\
    fst (batch_item env file w) = Returned (as_entry (filename file) resp) /\
    same_service (snd (detect_fall_single env (upload file) w))
                 (snd (batch_item env file w)).
Proof.
  intros Hr [ct Hct].
  rewrite detect_fall_single_run, batch_item_run, Hr, Hct. cbn [negb]. cbv zeta.
  destruct (negb (PyStr.startswith ct "image/")).
  { eexists. repeat split. }
  unfold failed.
  destruct (storage_down w).
  { eexists. split; [reflexivity|]. split; [reflexivity|]. now repeat split. }
  destruct (store w !! _).
  { eexists. repeat split. }
  destruct (decode env (body (upload file))) as [image|e].
  2:{ eexists. split; [reflexivity|]. split; [|now repeat split].
      cbn [fst as_entry]. change (500 =? 500) with true. cbv iota.
      now rewrite drop_chars_app. }
  destruct (detect_fall env image _) as [[r|e] w3].
  - eexists. repeat split.
  - eexists. split; [reflexivity|]. split; [|now repeat split].
    cbn [fst as_entry]. change (500 =? 500) with true. cbv iota.
    now rewrite drop_chars_app.
Qed.

(** A file with a declared content type always gets an entry, under its
    own name. *)
Lemma batch_item_returns (env : Env) (file : NamedFile) (w : World) :
  is_Some (content_type (upload file)) ->
  exists entry,
    fst (batch_item env file w) = Returned entry /\
    entry_name entry = filename file.
Proof.
  intros [ct Hct]. rewrite batch_item_run, Hct. cbv zeta.
  destruct (negb (PyStr.startswith ct "image/")); [eexists; now split|].
  destruct (storage_down w); [eexists; now split|].
  destruct (store w !! _); [eexists; now split|].
  destruct (decode env (body (upload file))) as [image|e];
    [|eexists; now split].
  destruct (detect_fall env image _) as [[r|e] w3]; eexists; now split.
Qed.

Lemma batch_loop_names (env_of : nat -> Env) (files : list NamedFile) :
  Forall (fun f => is_Some (content_type (upload f))) files ->
  forall i w,
  exists entries,
    fst (batch_loop env_of i files w) = Returned entries /\
    map entry_name entries = map filename files.
Proof.
  induction 1 as [|file rest Hf _ IH]; intros i w.
  - exists []. now split.
  - cbn [batch_loop]. unfold bind at 1.
    destruct (batch_item_returns (env_of i) file w Hf) as (entry & He & Hn).
    destruct (batch_item (env_of i) file w) as [o w1]. cbn [fst] in He. subst o.
    unfold bind at 1.
    destruct (IH (S i) w1) as (entries & Hes & Hns).
    destruct (batch_loop env_of (S i) rest w1) as [o w2].
    cbn [fst] in Hes. subst o.
    exists (entry :: entries). split; [reflexivity|].
    cbn [map]. now rewrite Hn, Hns.
Qed.

(** X1. On a ready service, a batch of at most ten files that all declare
    a content type is always answered with a result list that has one
    entry per file, in the order of the files and under their names: no
    failure of one file (not an image, undecodable, storage or model
    error) drops an entry or stops the loop. *)
Theorem batch_one_entry_per_file :
  forall (env_of : nat -> Env) (files : list NamedFile) (w : World),
    model_ready w = true ->
    (length files <= 10)%nat ->
    Forall (fun f => is_Some (content_type (upload f))) files ->
    exists entries,
      fst (detect_fall_batch env_of files w) = Returned (BatchResults entries) /\
      map entry_name entries = map filename files.
Proof.
  intros env_of files w Hr Hn Hf. unfold detect_fall_batch.
  rewrite Hr. cbn [negb].
  destruct (10 <? length files)%nat eqn:E; [apply Nat.ltb_lt in E; lia|].
  destruct (batch_loop_names env_of files Hf 0%nat w) as (entries & He & Hm).
  unfold bind. destruct (batch_loop env_of 0 files w) as [o w1].
  cbn [fst] in He. subst o. exists entries. now split.
Qed.

(** X2. A batch of one file is answered as the single endpoint answers
    that file: the same JSON object, or the same refusal as an [error]
    entry (without the "Processing failed" prefix), and the table ends up
    the same. *)
Theorem batch_of_one_is_single :
  forall (env : Env) (file : NamedFile) (w : World),
    model_ready w = true ->
    is_Some (content_type (upload file)) ->
    exists resp,
      fst (detect_fall_single env (upload file) w) = Returned resp /\
      fst (detect_fall_batch (fun _ => env) [file] w)
      = Returned (BatchResults [as_entry (filename file) resp]) /\
      store (snd (detect_fall_batch (fun _ => env) [file] w))
      = store (snd (detect_fall_single env (upload file) w)).
Proof.
  intros env file w Hr Hct.
  destruct (batch_item_single env file w Hr Hct) as (resp & H1 & H2 & H3 & _).
  exists resp. split; [exact H1|].
  unfold detect_fall_batch. rewrite Hr. cbn [negb length Nat.ltb Nat.leb].
  cbn [batch_loop]. unfold bind, ret.
  destruct (batch_item env file w) as [o w1]. cbn [fst snd] in H2, H3.
  subst o. cbn [fst snd]. now split.
Qed.

(** X3. The same bytes twice in one batch are classified once: when the
    first copy is classified and stored, the second is served the stored
    row, marked cached, under its own file name. *)
Theorem batch_duplicate_is_cached :
  forall (env_of : nat -> Env) (f1 f2 : NamedFile) (w : World)
         (ct1 ct2 : string) (image : Image) (r : Detection),
    model_ready w = true ->
    db_faults w = [] ->
    content_type (upload f1) = Some ct1 -> PyStr.startswith ct1 "image/" = true ->
    content_type (upload f2) = Some ct2 -> PyStr.startswith ct2 "image/" = true ->
    body (upload f2) = body (upload f1) ->
    store w !! calculate_image_hash (body (upload f1)) = None ->
    decode (env_of 0%nat) (body (upload f1)) = Returned image ->
    classify (env_of 0%nat) image = Returned r ->
    let d := fresh_answer (env_of 0%nat)
               (calculate_image_hash (body (upload f1))) image r in
    fst (detect_fall_batch env_of [f1; f2] w)
    = Returned (BatchResults
                  [EntryResult (filename f1) d;
                   EntryResult (filename f2) (as_cached (db_now (env_of 0%nat)) d)]).
Proof.
  intros env_of f1 f2 w ct1 ct2 image r Hr Hf Hc1 Hs1 Hc2 Hs2 Hb Hm Hd Hc d.
  subst d. unfold detect_fall_batch. rewrite Hr.
  cbn [negb length Nat.ltb Nat.leb batch_loop].
  unfold bind at 1 2. rewrite batch_item_run, Hc1, Hs1. cbn [negb]. cbv zeta.
  unfold storage_down at 1. rewrite Hf, Hm, Hd. cbn [hd].
  set (h := calculate_image_hash (body (upload f1))).
  match goal with
  | |- context [detect_fall (env_of 0%nat) image ?w2] =>
      pose proof (detect_fall_run (env_of 0%nat) image w2) as [H1 (H2 & H3 & H4)];
      destruct (detect_fall (env_of 0%nat) image w2) as [o w3]
  end.
  cbn [fst snd model_ready store db_faults logged acquired] in H1, H2, H3, H4.
  rewrite Hr, Hc in H1. rewrite Hf in H4. cbn [tl] in H4. subst o.
  assert (Hup : storage_down w3 = false)
    by (unfold storage_down; now rewrite <- H4).
  rewrite save_result_run, Hup. cbn [snd].
  unfold bind at 1 2. rewrite batch_item_run, Hc2, Hs2. cbn [negb]. cbv zeta.
  unfold storage_down at 1. cbn [db_faults store]. rewrite <- H4. cbn [tl hd].
  rewrite Hb. fold h. unfold inserted. rewrite <- H2. fold h in Hm. rewrite Hm.
  rewrite lookup_insert_eq. reflexivity.
Qed.

Lemma batch_item_raises (env : Env) (file : NamedFile) (w : World) :
  content_type (upload file) = None ->
  batch_item env file w
  = (Raised "'NoneType' object has no attribute 'startswith'", w).
Proof. intros H. now rewrite batch_item_run, H. Qed.

Lemma batch_item_outcome (env : Env) (file : NamedFile) (w : World) :
  (exists entry, fst (batch_item env file w) = Returned entry) \/
  fst (batch_item env file w)
  = Raised "'NoneType' object has no attribute 'startswith'".
Proof.
  destruct (content_type (upload file)) as [ct|] eqn:E.
  - left. destruct (batch_item_returns env file w) as (entry & H & _); eauto.
  - right. now rewrite batch_item_raises.
Qed.

(** X4. One part without a content type fails the whole batch: the
    exception it raises is not caught, so no result list is returned, also
    for the files before it that were already classified and stored. *)
Theorem batch_without_content_type_fails :
  forall (env_of : nat -> Env) (files : list NamedFile) (w : World),
    model_ready w = true ->
    (length files <= 10)%nat ->
    Exists (fun f => content_type (upload f) = None) files ->
    fst (detect_fall_batch env_of files w)
    = Raised "'NoneType' object has no attribute 'startswith'".
Proof.
  intros env_of files w Hr Hn Hex. unfold detect_fall_batch.
  rewrite Hr. cbn [negb].
  destruct (10 <? length files)%nat eqn:E; [apply Nat.ltb_lt in E; lia|].
  clear Hr Hn E.
  assert (H : forall i w,
             fst (batch_loop env_of i files w)
             = Raised "'NoneType' object has no attribute 'startswith'").
  { induction files as [|file rest IH]; intros i w0; [inversion Hex|].
    cbn [batch_loop]. unfold bind at 1.
    destruct (content_type (upload file)) as [ct|] eqn:Hct.
    - destruct (batch_item_returns (env_of i) file w0) as (entry & He & _);
        [rewrite Hct; eauto|].
      destruct (batch_item (env_of i) file w0) as [o w1].
      cbn [fst] in He. subst o. unfold bind at 1.
      assert (Hrest : Exists (fun f => content_type (upload f) = None) rest)
        by (inversion Hex; subst; [congruence | assumption]).
      specialize (IH Hrest (S i) w1).
      destruct (batch_loop env_of (S i) rest w1) as [o w2].
      cbn [fst] in IH. now subst o.
    - now rewrite batch_item_raises. }
  unfold bind. specialize (H 0%nat w).
  destruct (batch_loop env_of 0 files w) as [o w1]. cbn [fst] in H. now subst o.
Qed.


(* ===================================================================== *)
(** ** What a request does to the table                                   *)
(* ===================================================================== *)

(** A returned classification says Yes or No. *)
Lemma classify_verdict (env : Env) (image : Image) (r : Detection) :
  classify env image = Returned r ->
  det_result r = "Yes" \/ det_result r = "No".
Proof.
  unfold classify. intros H.
  destruct (detect_fall env image idle) as [o w'] eqn:E.
  cbn [fst] in H. subst o.
  apply detect_fall_tally in E as (y & n & -> & _).
  cbn [tally det_result]. destruct (n <? y); auto.
Qed.

(** A request leaves the table as it was, or adds the row of its own
    fresh classification under the fingerprint of its bytes. *)
Lemma detect_fall_single_store (env : Env) (file : UploadFile) (w : World) :
  let w' := snd (detect_fall_single env file w) in
  let h := calculate_image_hash (body file) in
  model_ready w' = model_ready w /\
  (store w' = store w \/
   exists image r,
     store w !! h = None /\
     decode env (body file) = Returned image /\
     classify env image = Returned r /\
     store w' = <[h := new_row env (det_result r) (det_confidence r)
                          (size_string image) (elapsed_ms env)]> (store w)).
Proof.
  cbv zeta. rewrite detect_fall_single_run.
  destruct (model_ready w) eqn:Hr; cbn [negb]; [|now split; [|left]].
  destruct (content_type file) as [ct|]; [|now split; [|left]].
  destruct (negb (PyStr.startswith ct "image/")); [now split; [|left]|].
  cbv zeta. unfold failed.
  destruct (storage_down w); [now split; [|left]|].
  destruct (store w !! calculate_image_hash (body file)) eqn:Hm;
    [now split; [|left]|].
  destruct (decode env (body file)) as [image|e] eqn:Hd; [|now split; [|left]].
  match goal with
  | |- context [detect_fall env image ?w2] =>
      pose proof (detect_fall_run env image w2) as [H1 (H2 & H3 & H4)];
      destruct (detect_fall env image w2) as [o w3]
  end.
  cbn [fst snd model_ready store db_faults logged acquired] in H1, H2, H3, H4.
  rewrite Hr in H1, H3.
  destruct o as [r|e]; cbn [snd logged model_ready store].
  2:{ split; [auto|left; auto]. }
  rewrite save_result_run.
  destruct (storage_down w3); cbn [snd logged acquired model_ready store].
  - split; [auto|left; auto].
  - split; [auto|]. right. exists image, r.
    unfold inserted. rewrite <- H2, Hm. auto.
Qed.

(** X5. A request never deletes or rewrites a row: the table only grows,
    by at most the one row stored under the fingerprint of the request's
    bytes, and a fingerprint that already has a row keeps it. The
    readiness flag is not changed. *)
Theorem request_only_adds_own_row :
  forall (env : Env) (file : UploadFile) (w : World),
    let w' := snd (detect_fall_single env file w) in
    store w ⊆ store w' /\
    (forall h, h <> calculate_image_hash (body file) ->
               store w' !! h = store w !! h) /\
    (forall row, store w !! calculate_image_hash (body file) = Some row ->
                 store w' = store w) /\
    model_ready w' = model_ready w.
Proof.
  intros env file w.
  destruct (detect_fall_single_store env file w)
    as [Hr [Hs | (image & r & Hm & _ & _ & Hs)]]; cbv zeta in *.
  - rewrite Hs. repeat split; auto.
  - rewrite Hs. repeat split; auto.
    + now apply insert_subseteq.
    + intros h Hne. now apply lookup_insert_ne.
    + intros row Hrow. congruence.
Qed.

Lemma verdicts_only_request (env : Env) (file : UploadFile) (w : World) :
  verdicts_only (store w) ->
  verdicts_only (store (snd (detect_fall_single env file w))).
Proof.
  intros Hv.
  destruct (detect_fall_single_store env file w)
    as [_ [Hs | (image & r & _ & _ & Hc & Hs)]]; cbv zeta in *;
    rewrite Hs; [exact Hv|].
  intros h row. destruct (decide (h = calculate_image_hash (body file))) as [->|Hne].
  - rewrite lookup_insert_eq. intros [= <-]. cbn. now apply classify_verdict in Hc.
  - rewrite lookup_insert_ne by congruence. apply Hv.
Qed.

Lemma verdicts_only_serve (requests : list (Env * UploadFile * list bool)) :
  forall w, verdicts_only (store w) -> verdicts_only (store (serve requests w)).
Proof.
  induction requests as [|[[env file] faults] rest IH]; intros w Hv; [exact Hv|].
  cbn [serve]. apply IH. now apply verdicts_only_request.
Qed.

(* ===================================================================== *)
(** ** Statistics                                                         *)
(* ===================================================================== *)

Lemma count_result_partition (rows : list Row) :
  Forall (fun r => row_result r = "Yes" \/ row_result r = "No") rows ->
  count_result "Yes" rows + count_result "No" rows = Z.of_nat (length rows).
Proof.
  unfold count_result. induction 1 as [|r rows Hr _ IH]; [reflexivity|].
  cbn [List.filter].
  destruct Hr as [-> | ->].
  - change ("Yes" =? "Yes")%string with true.
    change ("Yes" =? "No")%string with false. cbn [length]. lia.
  - change ("No" =? "Yes")%string with false.
    change ("No" =? "No")%string with true. cbn [length]. lia.
Qed.

Lemma size_list_to_set_le (l : list string) :
  (stdpp.base.size (list_to_set l : gset string) <= length l)%nat.
Proof.
  induction l as [|x l IH]; cbn [list_to_set length].
  - now rewrite size_empty.
  - rewrite size_union_alt, size_singleton.
    assert (Hsub : (list_to_set l ∖ {[x]} : gset string) ⊆ list_to_set l)
      by (intros y Hy; now apply elem_of_difference in Hy as [Hy _]).
    apply subseteq_size in Hsub. lia.
Qed.

Lemma get_statistics_run (w : World) :
  get_statistics w =
  (if storage_down w then Raised "connection failure"
   else Returned (aggregate (snd <$> map_to_list (store w))),
   acquired w).
Proof.
  unfold get_statistics, bind. rewrite pool_acquire_run.
  now destruct (storage_down w).
Qed.

(** X6. Whatever requests a service has answered, starting from a table
    whose rows all say Yes or No (the empty table for one), its statistics
    add up: every stored row is counted once, as a fall or as no fall, the
    total is the number of stored fingerprints, there are no more active
    days than rows, and none only when the table is empty. *)
Theorem statistics_add_up :
  forall (requests : list (Env * UploadFile * list bool)) (w0 : World),
    verdicts_only (store w0) ->
    let w := with_faults (serve requests w0) [] in
    exists stats,
      fst (get_statistics w) = Returned stats /\
      total_processed stats = Z.of_nat (stdpp.base.size (store w)) /\
      fall_detected stats + no_fall stats = total_processed stats /\
      0 <= days_active stats <= total_processed stats /\
      (days_active stats = 0 <-> store w = ∅).
Proof.
  intros requests w0 Hv w.
  assert (Hvw : verdicts_only (store w)) by (now apply verdicts_only_serve).
  rewrite get_statistics_run. change (storage_down w) with false. cbv iota.
  eexists. split; [reflexivity|].
  set (rows := snd <$> map_to_list (store w)).
  assert (Hlen : length rows = stdpp.base.size (store w)).
  { unfold rows. now rewrite length_fmap, length_map_to_list. }
  cbn [aggregate total_processed fall_detected no_fall days_active].
  split; [now rewrite Hlen|]. split.
  { apply count_result_partition. apply List.Forall_forall. intros r Hin.
    apply list_elem_of_In in Hin. unfold rows in Hin.
    apply list_elem_of_fmap in Hin as ([h r'] & -> & Hin).
    apply elem_of_map_to_list in Hin. eapply Hvw; exact Hin. }
  split.
  { pose proof (size_list_to_set_le (map (fun r => date_of (row_created_at r)) rows)).
    rewrite length_map in H. lia. }
  split.
  - intros H0. apply map_size_empty_iff. rewrite <- Hlen.
    destruct rows as [|r rows']; [reflexivity|]. exfalso.
    cbn [map list_to_set] in H0.
    assert (stdpp.base.size ({[date_of (row_created_at r)]}
              ∪ list_to_set (map (fun r => date_of (row_created_at r)) rows')
              : gset string) <> 0%nat).
    { apply size_non_empty_iff. set_solver. }
    lia.
  - intros He. subst rows. rewrite He, map_to_list_empty. reflexivity.
Qed.

(* ===================================================================== *)
(** ** Reading results back                                               *)
(* ===================================================================== *)

Lemma get_result_run (h : string) (w : World) :
  get_result h w =
  if storage_down w then (Raised "connection failure", acquired w)
  else (Returned match store w !! h with
                 | Some row => Json (cached_answer h row)
                 | None => HTTPException 404 "Result not found"
                 end,
        logged (acquired w) [EvSelect h]).
Proof.
  unfold get_result, bind. rewrite check_existing_result_run.
  destruct (storage_down w); [reflexivity|].
  now destruct (store w !! h).
Qed.

(** The row behind a fresh answer that was stored. *)
Lemma fresh_answer_row (env : Env) (file : UploadFile) (w w' : World)
      (d : ResultDict) :
  detect_fall_single env file w = (Returned (Json d), w') ->
  cached d = false ->
  is_Some (store w' !! image_hash d) ->
  exists row,
    store w' !! image_hash d = Some row /\
    cached_answer (image_hash d) row = as_cached (db_now env) d.
Proof.
  intros H Hc Hst.
  destruct (fresh_answer_inv _ _ _ _ _ H Hc)
    as (image & r & w3 & Hr & Hm & -> & (Hs3 & Hr3 & Hf3) & ->).
  cbn [image_hash fresh_answer] in *.
  set (h := calculate_image_hash (body file)) in *.
  cbn [acquired store] in Hs3.
  rewrite save_result_run in Hst |- *.
  destruct (storage_down w3); cbn [snd store logged acquired] in *.
  { rewrite <- Hs3, Hm in Hst. now destruct Hst. }
  unfold inserted. rewrite <- Hs3, Hm, lookup_insert_eq.
  eexists. split; reflexivity.
Qed.

(** X7. A fresh answer that was stored can be read back by its
    fingerprint from [/result/{hash}]: with the storage answering, the
    endpoint returns the fields of that answer, stamped and marked cached,
    whether or not the model is (still) loaded; a key of hexadecimal
    digits (as every fingerprint is) without a row gets 404. *)
Theorem get_result_round_trip :
  forall (env : Env) (file : UploadFile) (w0 w1 w2 : World) (d : ResultDict),
    detect_fall_single env file w0 = (Returned (Json d), w1) ->
    cached d = false ->
    is_Some (store w1 !! image_hash d) ->
    store w1 ⊆ store w2 ->
    storage_down w2 = false ->
    fst (get_result (image_hash d) w2)
    = Returned (Json (as_cached (db_now env) d)) /\
    forall h, all_chars is_hex_digit h = true ->
              store w2 !! h = None ->
              fst (get_result h w2)
              = Returned (HTTPException 404 "Result not found").
Proof.
  intros env file w0 w1 w2 d H Hc Hst Hsub Hup.
  destruct (fresh_answer_row _ _ _ _ _ H Hc Hst) as (row & Hrow & Heq).
  rewrite !get_result_run, Hup. split.
  - cbn [fst]. rewrite (lookup_weaken _ _ _ _ Hrow Hsub). now rewrite Heq.
  - intros h _ Hh. rewrite get_result_run, Hup. cbn [fst]. now rewrite Hh.
Qed.

(** X8. Insert then lookup, for a fingerprint and a row that fit the
    columns of the table: once [save_result] has returned true, a lookup
    of the same fingerprint (the storage answering) is a hit, marked
    cached, and carries the row of the first writer: the one just written
    if the fingerprint was new, the old one otherwise. Lookups of other
    fingerprints are not affected. *)
Theorem save_then_lookup :
  forall (env : Env) (h res : string) (conf : Q) (sz : string) (ms : Z)
         (w : World) (rest : list bool),
    fits_columns h (new_row env res conf sz ms) = true ->
    db_faults w = false :: false :: rest ->
    let w' := snd (save_result env h res conf sz ms w) in
    fst (save_result env h res conf sz ms w) = Returned true /\
    fst (check_existing_result h w')
    = Returned (Some (cached_answer h
                        match store w !! h with
                        | Some old => old
                        | None => new_row env res conf sz ms
                        end)) /\
    forall h', h' <> h ->
               fst (check_existing_result h' w')
               = fst (check_existing_result h' (acquired w)).
Proof.
  intros env h res conf sz ms w rest _ Hf. cbv zeta.
  rewrite save_result_run. unfold storage_down at 1 2. rewrite Hf. cbn [hd fst snd].
  split; [reflexivity|].
  rewrite !check_existing_result_run. unfold storage_down.
  cbn [db_faults store acquired]. rewrite Hf. cbn [tl hd fst]. split.
  - unfold inserted. destruct (store w !! h) as [old|] eqn:E.
    + now rewrite E.
    + now rewrite lookup_insert_eq.
  - intros h' Hne. cbn [snd]. rewrite !check_existing_result_run.
    unfold storage_down. cbn [db_faults store acquired].
    rewrite Hf. cbn [tl hd fst].
    unfold inserted. destruct (store w !! h); [reflexivity|].
    now rewrite lookup_insert_ne by congruence.
Qed.

(* ===================================================================== *)
(** ** The cost of a classification and the lock around it                *)
(* ===================================================================== *)

Lemma vote_loop_trace (env : Env) (crops : list Image) :
  forall y n w,
  exists es,
    trace (snd (vote_loop env crops y n w)) = (trace w ++ es)%list /\
    Forall (fun e => is_ask e = true) es /\
    (length es <= 2 * length crops)%nat /\
    forall y' n',
      fst (vote_loop env crops y n w) = Returned (y', n') ->
      Z.of_nat (length crops) + (y' - y) <= Z.of_nat (length es).
Proof.
  induction crops as [|img rest IH]; intros y n w.
  - exists []. cbn. rewrite app_nil_r. repeat split; auto.
    intros y' n' [= <- <-]. lia.
  - rewrite vote_loop_step.
    destruct (generate env img q_person) as [seen|e].
    2:{ exists [EvAsk img q_person]. cbn. repeat split; auto; try lia.
        discriminate. }
    destruct (is_affirmative (normalize seen)).
    + cbv zeta.
      destruct (generate env img q_fall) as [fallen|e].
      2:{ exists [EvAsk img q_person; EvAsk img q_fall]. cbn.
          repeat split; auto; try lia. discriminate. }
      destruct (is_affirmative (normalize fallen)).
      * destruct (IH (y + 1) n (logged w [EvAsk img q_person; EvAsk img q_fall]))
          as (es & Ht & Ha & Hl & Hv).
        exists (EvAsk img q_person :: EvAsk img q_fall :: es).
        rewrite Ht. cbn [logged trace length]. rewrite <- app_assoc.
        repeat split; auto; try lia.
        intros y' n' H. specialize (Hv y' n' H). lia.
      * destruct (IH y (n + 1) (logged w [EvAsk img q_person; EvAsk img q_fall]))
          as (es & Ht & Ha & Hl & Hv).
        exists (EvAsk img q_person :: EvAsk img q_fall :: es).
        rewrite Ht. cbn [logged trace length]. rewrite <- app_assoc.
        repeat split; auto; try lia.
        intros y' n' H. specialize (Hv y' n' H). lia.
    + destruct (IH y (n + 1) (logged w [EvAsk img q_person]))
        as (es & Ht & Ha & Hl & Hv).
      exists (EvAsk img q_person :: es).
      rewrite Ht. cbn [logged trace length]. rewrite <- app_assoc.
      repeat split; auto; try lia.
      intros y' n' H. specialize (Hv y' n' H). lia.
Qed.

Lemma asks_all (es : list Event) :
  Forall (fun e => is_ask e = true) es -> asks es = Z.of_nat (length es).
Proof.
  unfold asks. induction 1 as [|e es He _ IH]; [reflexivity|].
  cbn [List.filter]. rewrite He. cbn [length]. lia.
Qed.

Lemma asks_app (es es' : list Event) : asks (es ++ es') = asks es + asks es'.
Proof. unfold asks. rewrite List.filter_app, length_app. lia. Qed.

Lemma not_lock_of_ask (es : list Event) :
  Forall (fun e => is_ask e = true) es ->
  Forall (fun e => is_lock_event e = false) es.
Proof.
  induction 1 as [|e es He _ IH]; constructor; [|exact IH].
  now destruct e.
Qed.

(** X9. On a ready service every classification call, returning or
    raising, does all its work between one acquisition of the model lock
    and one release: the lock is released on every exit, never taken
    twice, and the model is asked at most six questions. A call that
    returns has asked at least three questions, and one more for every
    Yes vote. *)
Theorem classification_under_lock :
  forall (env : Env) (image : Image) (w : World),
    model_ready w = true ->
    exists es,
      trace (snd (detect_fall env image w))
      = (trace w ++ [EvDetect; EvAcquire] ++ es ++ [EvRelease])%list /\
      Forall (fun e => is_lock_event e = false) es /\
      asks es <= 6 /\
      forall d, fst (detect_fall env image w) = Returned d ->
                3 + votes_yes d <= asks es.
Proof.
  intros env image w Hr. rewrite detect_fall_unfold, Hr. cbv zeta.
  rewrite detect_fall_body_run.
  destruct (_make_crops image) as [crops|e] eqn:Hc.
  2:{ exists [EvLogError e]. cbn [fst snd logged trace].
      rewrite <- !app_assoc. split; [reflexivity|].
      split; [now repeat constructor|].
      split; [vm_compute; discriminate | discriminate]. }
  apply make_crops_length in Hc.
  destruct (vote_loop_trace env crops 0 0 (logged w [EvDetect; EvAcquire]))
    as (es & Ht & Ha & Hl & Hv).
  destruct (vote_loop env crops 0 0 (logged w [EvDetect; EvAcquire]))
    as [[[y n]|e] w2]; cbn [fst snd] in *.
  - exists es. cbn [logged trace]. rewrite Ht. cbn [logged trace].
    rewrite <- !app_assoc. repeat split; auto.
    + now apply not_lock_of_ask.
    + rewrite asks_all by assumption. lia.
    + intros d [= <-]. cbn [tally votes_yes].
      rewrite asks_all by assumption. specialize (Hv y n eq_refl). lia.
  - exists (es ++ [EvLogError e])%list. cbn [logged trace]. rewrite Ht.
    cbn [logged trace]. rewrite <- !app_assoc. repeat split; auto.
    + apply Forall_app. split; [now apply not_lock_of_ask|]. now constructor.
    + rewrite asks_app, asks_all by assumption.
      change (asks [EvLogError e]) with 0. lia.
    + discriminate.
Qed.

(* ===================================================================== *)
(** ** Crops at the edges                                                 *)
(* ===================================================================== *)

(** X10. The crops shrink strictly: the 80% square is smaller than the
    centred square, it is empty (side 0) exactly when the shorter side of
    the image is one pixel, its corner is never clamped by the [max(0, _)]
    guards, and the centred square spans the image along its shorter
    side. *)
Theorem crops_shrink :
  forall (image : Image) (w h : Z),
    size image = (w, h) ->
    0 < w -> 0 < h -> Z.min w h <= Float64.max_side ->
    let m := Z.min w h in
    let s := 4 * m / 5 in
    _make_crops image
    = Returned [image;
                crop image ((w - m) / 2, (h - m) / 2,
                            (w - m) / 2 + m, (h - m) / 2 + m);
                crop image ((w - s) / 2, (h - s) / 2,
                            (w - s) / 2 + s, (h - s) / 2 + s)] /\
    0 <= s < m /\
    (s = 0 <-> m = 1) /\
    ((w - m) / 2 = 0 \/ (h - m) / 2 = 0).
Proof.
  intros image w h Hsz Hw Hh Hmax m s.
  assert (Hm : 0 < m <= w /\ m <= h /\ (m = w \/ m = h)) by (unfold m; lia).
  assert (Hs : 5 * s <= 4 * m < 5 * s + 5)
    by (unfold s; pose proof (Z.div_mod (4 * m) 5) as D;
        pose proof (Z.mod_pos_bound (4 * m) 5); lia).
  split.
  { unfold _make_crops. rewrite Hsz. fold m.
    rewrite int_mul_0_8_quotient by (unfold m in *; lia). fold s.
    assert (H1 : 0 <= (w - s) / 2) by (apply Z.div_pos; lia).
    assert (H2 : 0 <= (h - s) / 2) by (apply Z.div_pos; lia).
    now rewrite !Z.max_r by assumption. }
  split; [lia|]. split; [lia|].
  destruct Hm as (_ & _ & [-> | ->]); [left | right];
    rewrite Z.sub_diag; reflexivity.
Qed.

(** X10 at work on a one-pixel-high strip. *)
Lemma crops_shrink_witness :
  _make_crops (Decoded 7 1 [])
  = Returned [Decoded 7 1 [];
              crop (Decoded 7 1 []) (3, 0, 4, 1);
              crop (Decoded 7 1 []) (3, 0, 3, 0)].
Proof.
  destruct (crops_shrink (Decoded 7 1 []) 7 1 eq_refl) as [H _];
    [lia | lia | vm_compute; discriminate |].
  rewrite H. reflexivity.
Defined.

(* ===================================================================== *)
(** ** The life cycle of the service object                               *)
(* ===================================================================== *)

(** X11. In every state a service object can reach by [initialize] calls
    (succeeding or failing at either load) and [cleanup] calls, the health
    check agrees with the readiness flag the handlers test: a service
    flagged initialized always holds both a processor and a model. A failed
    re-initialisation does not take the flag down. *)
Theorem health_is_readiness :
  forall (svc : ModelService),
    reachable svc ->
    service_health svc = is_initialized svc /\
    (forall lp lm e,
        fst (initialize lp lm svc) = Raised e ->
        is_initialized (snd (initialize lp lm svc)) = is_initialized svc).
Proof.
  intros svc H.
  assert (Hinv : is_initialized svc = true ->
                 processor svc <> None /\ model svc <> None).
  { induction H as [|lp lm svc H IH|svc H IH]; cbn; try discriminate.
    unfold initialize. destruct lp as [p|e]; [|exact IH].
    destruct lm as [m|e]; cbn; [easy|].
    intros Hi. destruct (IH Hi). easy. }
  split.
  - unfold service_health. destruct (is_initialized svc); [|reflexivity].
    destruct (Hinv eq_refl) as [Hp Hm].
    rewrite !bool_decide_eq_true_2 by assumption. reflexivity.
  - intros lp lm e. unfold initialize.
    destruct lp as [p|e1]; [|reflexivity].
    destruct lm as [m|e2]; [discriminate | reflexivity].
Qed.

(** X11 at work: loaded, then a failed reload. *)
Lemma health_is_readiness_witness :
  let svc := snd (initialize (Returned 1%nat) (Raised "out of memory")
                    (snd (initialize (Returned 0%nat) (Returned 0%nat) new_service))) in
  service_health svc = true /\ is_initialized svc = true.
Proof.
  intros svc.
  assert (H : reachable svc)
    by (unfold svc; apply reach_initialize, reach_initialize, reach_new).
  destruct (health_is_readiness svc H) as [H1 _].
  split; [rewrite H1|]; reflexivity.
Defined.

(* ===================================================================== *)
(** ** Health and statistics endpoints                                    *)
(* ===================================================================== *)

(** X12. The [/health] endpoint never fails because of the storage: with
    the storage down it still answers, reporting unhealthy, the database
    not connected and no statistics, while [/statistics] answers 500. It
    reports healthy exactly when the model is healthy and the storage
    answered. *)
Theorem health_survives_storage_failure :
  forall (svc : option ModelService) (gpu : bool) (w : World),
    exists hl,
      fst (health_check svc gpu w) = Returned hl /\
      database_connected hl = negb (storage_down w) /\
      (status hl = "healthy" <->
       (exists s, svc = Some s /\ service_health s = true) /\
       storage_down w = false) /\
      (storage_down w = true ->
       statistics hl = None /\
       fst (statistics_endpoint w)
       = Returned (inr (500, "Failed to get statistics: connection failure"))).
Proof.
  intros svc gpu w. unfold health_check, statistics_endpoint, try_except, bind.
  rewrite get_statistics_run.
  destruct (storage_down w).
  - eexists. split; [reflexivity|]. cbn. split; [reflexivity|]. split; [|auto].
    split; [discriminate | intros [_ ?]; discriminate].
  - eexists. split; [reflexivity|]. cbn. split; [reflexivity|].
    split; [|discriminate].
    destruct svc as [s|]; [destruct (service_health s) eqn:E|].
    + split; [intros _; split; [eauto | reflexivity] | reflexivity].
    + split; [discriminate | intros [(s' & [= <-] & Hs) _]; congruence].
    + split; [discriminate | intros [(s' & ? & _) _]; discriminate].
Qed.

(* ===================================================================== *)
(** ** The evaluation scripts                                             *)
(* ===================================================================== *)

(** X13. The label counts of a directory listing are the numbers of names
    that [extract_label_from_filename] labels 0 and 1: the two functions
    agree name by name, a name carrying both markers counts as 0 only, and
    unlabelled names are counted nowhere. *)
Theorem label_counts_agree :
  forall (listing : list string),
    let labelled v :=
      Z.of_nat (length (List.filter
                          (fun name =>
                             match extract_label_from_filename name with
                             | Some l => l =? v
                             | None => false
                             end) listing)) in
    count_dataset_labels listing 0 0 = (labelled 0, labelled 1) /\
    labelled 0 + labelled 1 <= Z.of_nat (length listing).
Proof.
  intros listing. cbv zeta.
  assert (H : forall c0 c1,
             count_dataset_labels listing c0 c1
             = (c0 + Z.of_nat (length (List.filter
                          (fun name =>
                             match extract_label_from_filename name with
                             | Some l => l =? 0
                             | None => false
                             end) listing)),
                c1 + Z.of_nat (length (List.filter
                          (fun name =>
                             match extract_label_from_filename name with
                             | Some l => l =? 1
                             | None => false
                             end) listing)))).
  { induction listing as [|name rest IH]; intros c0 c1.
    - cbn. f_equal; lia.
    - cbn [count_dataset_labels List.filter].
      assert (Hl : extract_label_from_filename name
                   = if PyStr.contains name "fallingtest_0_" then Some 0
                     else if PyStr.contains name "fallingtest_1_" then Some 1
                     else None) by reflexivity.
      rewrite Hl.
      destruct (PyStr.contains name "fallingtest_0_").
      + rewrite IH. cbn [Z.eqb length]. f_equal; lia.
      + destruct (PyStr.contains name "fallingtest_1_");
          rewrite IH; cbn [Z.eqb length Pos.eqb]; f_equal; lia. }
  split; [rewrite H; reflexivity|]. clear H.
  induction listing as [|name rest IH]; [cbn; lia|].
  cbn [List.filter length].
  destruct (extract_label_from_filename name) as [l|];
    [destruct (Z.eqb_spec l 0); destruct (Z.eqb_spec l 1)|];
    cbn [length]; lia.
Qed.

Lemma classify_body (env : Env) (image : Image) (w : World) :
  classify env image = fst (detect_fall_body env image w).
Proof.
  unfold classify. rewrite detect_fall_unfold.
  change (model_ready idle) with true. cbv iota zeta. cbn [fst].
  apply detect_fall_body_fst.
Qed.

(** X14. The evaluation script and the service agree: on a file that
    decodes, [analyze_local_image] returns the verdict of the service's
    classification of the same image with the same model, and [None]
    exactly when that classification raises; on a file that does not
    decode it returns [None]. The label predicted from a verdict is 1
    exactly when the Yes votes outnumber the No votes. *)
Theorem script_agrees_with_service :
  forall (env : Env) (image_bytes : list byte) (w : World),
    fst (analyze_local_image env image_bytes w)
    = Returned match decode env image_bytes with
               | Raised _ => None
               | Returned image =>
                   match classify env image with
                   | Returned d => Some (det_result d)
                   | Raised _ => None
                   end
               end /\
    forall image d,
      classify env image = Returned d ->
      pred_label (det_result d) = (if votes_no d <? votes_yes d then 1 else 0).
Proof.
  intros env image_bytes w. split.
  - unfold analyze_local_image, try_except, bind at 1, lift.
    destruct (decode env image_bytes) as [image|e]; [|reflexivity].
    rewrite (classify_body env image w), detect_fall_body_run.
    unfold bind at 1.
    destruct (_make_crops image) as [crops|e]; [|reflexivity].
    unfold bind at 1.
    destruct (vote_loop env crops 0 0 w) as [[[y n]|e] w']; reflexivity.
  - intros image d H. unfold classify in H.
    destruct (detect_fall env image idle) as [o w'] eqn:E.
    cbn [fst] in H. subst o.
    apply detect_fall_tally in E as (y & n & -> & _).
    cbn [tally det_result votes_yes votes_no].
    now destruct (n <? y).
Qed.

(* ===================================================================== *)
(** ** The theorems at work                                               *)
(* ===================================================================== *)

Lemma batch_one_entry_per_file_witness :
  exists entries,
    fst (detect_fall_batch (fun _ => Scenario.env)
           [Trial.a_png; Trial.notes_txt; Trial.b_png] Scenario.fresh)
    = Returned (BatchResults entries) /\
    map entry_name entries = ["a.png"; "notes.txt"; "b.png"].
Proof.
  apply (batch_one_entry_per_file (fun _ => Scenario.env)
           [Trial.a_png; Trial.notes_txt; Trial.b_png] Scenario.fresh).
  - reflexivity.
  - cbn; lia.
  - repeat constructor; cbn; eauto.
Defined.

Lemma batch_of_one_is_single_witness :
  exists resp,
    fst (detect_fall_single Scenario.env (upload Trial.b_png) Scenario.fresh)
    = Returned resp /\
    fst (detect_fall_batch (fun _ => Scenario.env) [Trial.b_png] Scenario.fresh)
    = Returned (BatchResults [as_entry "b.png" resp]) /\
    store (snd (detect_fall_batch (fun _ => Scenario.env) [Trial.b_png]
                  Scenario.fresh))
    = store (snd (detect_fall_single Scenario.env (upload Trial.b_png)
                    Scenario.fresh)).
Proof.
  apply (batch_of_one_is_single Scenario.env Trial.b_png Scenario.fresh).
  - reflexivity.
  - cbn; eauto.
Defined.

Lemma batch_duplicate_is_cached_witness :
  let d := fresh_answer Scenario.env (calculate_image_hash Scenario.payload)
             Scenario.picture Trial.two_of_three in
  fst (detect_fall_batch (fun _ => Scenario.env)
         [Trial.a_png; Trial.copy_png] Scenario.fresh)
  = Returned (BatchResults
                [EntryResult "a.png" d;
                 EntryResult "copy.png" (as_cached "2025-01-01T00:00:00" d)]).
Proof.
  apply (batch_duplicate_is_cached (fun _ => Scenario.env)
           Trial.a_png Trial.copy_png Scenario.fresh "image/png" "image/png"
           Scenario.picture Trial.two_of_three);
    reflexivity.
Defined.

Lemma batch_without_content_type_fails_witness :
  fst (detect_fall_batch (fun _ => Scenario.env)
         [Trial.a_png; Trial.untyped] Scenario.fresh)
  = Raised "'NoneType' object has no attribute 'startswith'".
Proof.
  apply (batch_without_content_type_fails (fun _ => Scenario.env)
           [Trial.a_png; Trial.untyped] Scenario.fresh).
  - reflexivity.
  - cbn; lia.
  - right. left. reflexivity.
Defined.

Lemma statistics_add_up_witness :
  let requests :=
    [(Scenario.env, Scenario.png Scenario.payload, @nil bool);
     (Scenario.env, Scenario.png Scenario.hello, []);
     (Scenario.env, Scenario.png Scenario.payload, [])] in
  let w := with_faults (serve requests Scenario.fresh) [] in
  exists stats,
    fst (get_statistics w) = Returned stats /\
    total_processed stats = Z.of_nat (stdpp.base.size (store w)) /\
    fall_detected stats + no_fall stats = total_processed stats /\
    0 <= days_active stats <= total_processed stats /\
    (days_active stats = 0 <-> store w = ∅).
Proof.
  intros requests.
  apply (statistics_add_up requests Scenario.fresh).
  intros h row H. cbn in H. rewrite lookup_empty in H. discriminate.
Defined.

Lemma get_result_round_trip_witness :
  let d := fresh_answer Scenario.env (calculate_image_hash Scenario.payload)
             Scenario.picture Trial.two_of_three in
  model_ready Trial.unloaded_after_one = false /\
  fst (get_result (image_hash d) Trial.unloaded_after_one)
  = Returned (Json (as_cached "2025-01-01T00:00:00" d)).
Proof.
  intros d. split; [reflexivity|].
  set (run1 := detect_fall_single Scenario.env (Scenario.png Scenario.payload)
                 Scenario.fresh).
  assert (H1 : run1 = (Returned (Json d), snd run1)) by (vm_compute; reflexivity).
  assert (Hst : is_Some (store (snd run1) !! image_hash d))
    by (vm_compute; eexists; reflexivity).
  destruct (get_result_round_trip Scenario.env (Scenario.png Scenario.payload)
              Scenario.fresh (snd run1) Trial.unloaded_after_one d
              H1 eq_refl Hst) as [H _]; [reflexivity | reflexivity |].
  exact H.
Defined.

Lemma save_then_lookup_witness :
  let w := Scenario.holding true [false; false] in
  let h := calculate_image_hash Scenario.payload in
  let w' := snd (save_result Scenario.env h "Yes" (Qmake 667 1000) "640x480" 7 w) in
  fits_columns h (new_row Scenario.env "Yes" (Qmake 667 1000) "640x480" 7) = true /\
  fst (check_existing_result h w')
  = Returned (Some (cached_answer h Scenario.old_row)).
Proof.
  cbv zeta.
  assert (F : fits_columns (calculate_image_hash Scenario.payload)
                (new_row Scenario.env "Yes" (Qmake 667 1000) "640x480" 7) = true)
    by (vm_compute; reflexivity).
  split; [exact F|].
  destruct (save_then_lookup Scenario.env (calculate_image_hash Scenario.payload)
              "Yes" (Qmake 667 1000) "640x480" 7
              (Scenario.holding true [false; false]) [] F eq_refl)
    as (_ & H & _).
  rewrite H.
  assert (Hrow : store (Scenario.holding true [false; false])
                 !! calculate_image_hash Scenario.payload
                 = Some Scenario.old_row) by apply lookup_singleton_eq.
  now rewrite Hrow.
Defined.

Lemma classification_under_lock_witness :
  exists es,
    trace (snd (detect_fall Scenario.env Scenario.picture Scenario.fresh))
    = ([] ++ [EvDetect; EvAcquire] ++ es ++ [EvRelease])%list /\
    Forall (fun e => is_lock_event e = false) es /\
    asks es <= 6 /\
    forall d,
      fst (detect_fall Scenario.env Scenario.picture Scenario.fresh) = Returned d ->
      3 + votes_yes d <= asks es.
Proof.
  apply (classification_under_lock Scenario.env Scenario.picture Scenario.fresh).
  reflexivity.
Defined.

(* ===================================================================== *)
(** ** The table over a sequence of requests                              *)
(* ===================================================================== *)

(** X15. Over any sequence of requests, under any storage faults, the
    table is append-only and keyed by content: every row present at the
    start is still there unchanged at the end, every new key is the
    fingerprint of the bytes of one of the requests, and the table has
    grown by at most one row per request. *)
Theorem table_is_append_only :
  forall (requests : list (Env * UploadFile * list bool)) (w : World),
    let w' := serve requests w in
    store w ⊆ store w' /\
    (forall h, is_Some (store w' !! h) ->
               is_Some (store w !! h) \/ In h (fingerprints requests)) /\
    (stdpp.base.size (store w') <= stdpp.base.size (store w) + length requests)%nat.
Proof.
  induction requests as [|[[env file] faults] rest IH]; intros w; cbv zeta.
  - cbn [serve fingerprints map length]. repeat split; auto. lia.
  - cbn [serve]. set (w1 := snd (detect_fall_single env file (with_faults w faults))).
    destruct (IH w1) as (Hsub & Hkeys & Hsize).
    destruct (detect_fall_single_store env file (with_faults w faults))
      as [_ Hst]. fold w1 in Hst. cbv zeta in Hst.
    change (store (with_faults w faults)) with (store w) in Hst.
    assert (H1 : store w ⊆ store w1 /\
                 (forall h, is_Some (store w1 !! h) ->
                            is_Some (store w !! h) \/
                            h = calculate_image_hash (body file)) /\
                 (stdpp.base.size (store w1) <= S (stdpp.base.size (store w)))%nat).
    { destruct Hst as [-> | (image & r & Hm & _ & _ & ->)].
      - repeat split; auto.
      - split; [now apply insert_subseteq|]. split.
        + intros h. destruct (decide (h = calculate_image_hash (body file)));
            [auto|]. rewrite lookup_insert_ne by congruence. auto.
        + rewrite map_size_insert_None by assumption. lia. }
    destruct H1 as (Hsub1 & Hkeys1 & Hsize1).
    split; [etransitivity; eassumption|]. split.
    + intros h Hh. cbn [fingerprints map In fst snd].
      destruct (Hkeys h Hh) as [H|H]; [|auto].
      destruct (Hkeys1 h H) as [H'|H']; auto.
    + cbn [length]. lia.
Qed.

(* ===================================================================== *)
(** ** Every request is answered                                          *)
(* ===================================================================== *)

(** X16. A request whose part declares a content type is always answered:
    no exception escapes the handler. The answer is a JSON object about
    the submitted bytes (it carries their fingerprint), or a refusal with
    status 503, 400 or 500; an answer marked cached is a stored row, an
    answer not marked cached was classified in this request. *)
Theorem request_is_answered :
  forall (env : Env) (file : UploadFile) (w : World),
    is_Some (content_type file) ->
    exists resp,
      fst (detect_fall_single env file w) = Returned resp /\
      match resp with
      | Json d =>
          image_hash d = calculate_image_hash (body file) /\
          (if cached d
           then exists row, store w !! image_hash d = Some row /\
                            d = cached_answer (image_hash d) row
           else store w !! image_hash d = None /\
                exists image r,
                  decode env (body file) = Returned image /\
                  classify env image = Returned r /\
                  d = fresh_answer env (image_hash d) image r)
      | HTTPException code _ => code = 503 \/ code = 400 \/ code = 500
      end.
Proof.
  intros env file w [ct Hct]. rewrite detect_fall_single_run, Hct.
  assert (Hcode : forall code : Z,
             code = 503 \/ code = 400 \/ code = 500 ->
             forall detail (w' : World),
             exists resp,
               fst (Returned (HTTPException code detail), w') = Returned resp /\
               match resp with
               | Json d =>
                   image_hash d = calculate_image_hash (body file) /\
                   (if cached d
                    then exists row, store w !! image_hash d = Some row /\
                                     d = cached_answer (image_hash d) row
                    else store w !! image_hash d = None /\
                         exists image r,
                           decode env (body file) = Returned image /\
                           classify env image = Returned r /\
                           d = fresh_answer env (image_hash d) image r)
               | HTTPException code _ => code = 503 \/ code = 400 \/ code = 500
               end).
  { intros code Hcode detail w'. eexists. split; [reflexivity|exact Hcode]. }
  destruct (model_ready w) eqn:Hr; cbn [negb]; [|apply Hcode; auto].
  destruct (negb (PyStr.startswith ct "image/")); [apply Hcode; auto|].
  cbv zeta. unfold failed.
  destruct (storage_down w); [apply Hcode; auto|].
  destruct (store w !! calculate_image_hash (body file)) as [row|] eqn:Hm.
  { eexists; split; [reflexivity|]. cbn. split; [reflexivity|]. eauto. }
  destruct (decode env (body file)) as [image|e] eqn:Hd; [|apply Hcode; auto].
  match goal with
  | |- context [detect_fall env image ?w2] =>
      pose proof (detect_fall_run env image w2) as [H1 _];
      destruct (detect_fall env image w2) as [o w3]
  end.
  cbn [fst model_ready logged acquired] in H1. rewrite Hr in H1.
  destruct o as [r|e]; [|apply Hcode; auto].
  eexists; split; [reflexivity|]. cbn. split; [reflexivity|].
  split; [exact Hm|]. exists image, r. auto.
Qed.

Lemma request_is_answered_witness :
  exists resp,
    fst (detect_fall_single Scenario.env (Scenario.png Scenario.hello)
           Scenario.fresh) = Returned resp /\
    match resp with
    | Json _ => False
    | HTTPException code _ => code = 500
    end.
Proof.
  destruct (request_is_answered Scenario.env (Scenario.png Scenario.hello)
              Scenario.fresh) as (resp & H & _); [cbn; eauto|].
  exists resp. split; [exact H|].
  assert (H' : fst (detect_fall_single Scenario.env
                      (Scenario.png Scenario.hello) Scenario.fresh)
               = Returned (HTTPException 500
                             "Processing failed: cannot identify image file"))
    by (vm_compute; reflexivity).
  rewrite H' in H. injection H as <-. reflexivity.
Defined.

(* ===================================================================== *)
(** ** The shape of a fingerprint                                         *)
(* ===================================================================== *)

Lemma hex_digit_is_hex (d : Z) : is_hex_digit (Sha256.hex_digit d) = true.
Proof.
  unfold Sha256.hex_digit.
  destruct (Z.to_nat d) as [|[|[|[|[|[|[|[|[|[|[|[|[|[|[|[|n]]]]]]]]]]]]]]]];
    try reflexivity.
  cbn. now destruct n.
Qed.

Lemma hex_all_hex (n : nat) (x : Z) (k : string) :
  all_chars is_hex_digit k = true ->
  all_chars is_hex_digit (Sha256.hex n x k) = true.
Proof.
  intros Hk. induction n as [|j IH]; [exact Hk|].
  cbn [Sha256.hex all_chars]. now rewrite hex_digit_is_hex, IH.
Qed.

(** X17. A fingerprint is always 64 lowercase hexadecimal digits: it fits
    the 64-character key column and the path of [/result/{hash}] for every
    input. *)
Theorem fingerprint_is_hex64 :
  forall (b : list byte),
    String.length (calculate_image_hash b) = 64%nat /\
    all_chars is_hex_digit (calculate_image_hash b) = true.
Proof.
  intros b. unfold calculate_image_hash, Sha256.hexdigest.
  destruct (Sha256.digest b) as [[[[[[[x0 x1] x2] x3] x4] x5] x6] x7].
  split; [now rewrite !hex_length|].
  repeat apply hex_all_hex. reflexivity.
Qed.

(* ===================================================================== *)
(** ** Answers up to case and blanks                                      *)
(* ===================================================================== *)

Lemma is_space_lower (c : ascii) :
  PyStr.is_space (PyStr.lower_char c) = PyStr.is_space c.
Proof.
  pose proof (PyStrFacts.all_ascii_spec
    (fun c => Bool.eqb (PyStr.is_space (PyStr.lower_char c)) (PyStr.is_space c))
    eq_refl c) as H.
  cbv beta in H. now apply Bool.eqb_prop in H.
Qed.

Lemma lstrip_lower (s : string) :
  PyStr.lstrip (PyStr.lower s) = PyStr.lower (PyStr.lstrip s).
Proof.
  induction s as [|c s IH]; [reflexivity|].
  cbn [PyStr.lower PyStr.lstrip]. rewrite is_space_lower.
  now destruct (PyStr.is_space c).
Qed.

Lemma rstrip_lower (s : string) :
  PyStr.rstrip (PyStr.lower s) = PyStr.lower (PyStr.rstrip s).
Proof.
  induction s as [|c s IH]; [reflexivity|].
  cbn [PyStr.lower PyStr.rstrip]. rewrite IH, is_space_lower.
  destruct (PyStr.rstrip s); cbn [PyStr.lower]; [|reflexivity].
  now destruct (PyStr.is_space c).
Qed.

Lemma strip_lower (s : string) :
  PyStr.strip (PyStr.lower s) = PyStr.lower (PyStr.strip s).
Proof. unfold PyStr.strip. now rewrite lstrip_lower, rstrip_lower. Qed.

Lemma lstrip_blank (s : string) :
  all_chars PyStr.is_space s = true -> PyStr.lstrip s = "".
Proof.
  induction s as [|c s IH]; [reflexivity|]. cbn [all_chars PyStr.lstrip].
  intros H. apply andb_prop in H as [-> H]. now apply IH.
Qed.

Lemma rstrip_blank (s : string) :
  all_chars PyStr.is_space s = true -> PyStr.rstrip s = "".
Proof.
  induction s as [|c s IH]; [reflexivity|]. cbn [all_chars PyStr.rstrip].
  intros H. apply andb_prop in H as [Hc H]. now rewrite IH, Hc.
Qed.

Lemma rstrip_app_blank (s post : string) :
  all_chars PyStr.is_space post = true ->
  PyStr.rstrip (s ++ post) = PyStr.rstrip s.
Proof.
  intros Hp. induction s as [|c s IH].
  - now apply rstrip_blank.
  - change (String c s ++ post) with (String c (s ++ post)).
    cbn [PyStr.rstrip]. now rewrite IH.
Qed.

Lemma strip_app_blank (s post : string) :
  all_chars PyStr.is_space post = true ->
  PyStr.strip (s ++ post) = PyStr.strip s.
Proof.
  intros Hp. unfold PyStr.strip. induction s as [|c s IH].
  - change ("" ++ post) with post. now rewrite (lstrip_blank post Hp).
  - change (String c s ++ post) with (String c (s ++ post)).
    cbn [PyStr.lstrip]. destruct (PyStr.is_space c); [exact IH|].
    change (String c (s ++ post)) with (String c s ++ post).
    now apply rstrip_app_blank.
Qed.

Lemma strip_blank_app (pre s : string) :
  all_chars PyStr.is_space pre = true ->
  PyStr.strip (pre ++ s) = PyStr.strip s.
Proof.
  intros Hp. unfold PyStr.strip. f_equal.
  induction pre as [|c pre IH]; [reflexivity|].
  cbn [all_chars] in Hp. apply andb_prop in Hp as [Hc Hp].
  change (String c pre ++ s) with (String c (pre ++ s)).
  cbn [PyStr.lstrip]. rewrite Hc. now apply IH.
Qed.

(** X18. The interpretation of a model answer ignores letter case and
    surrounding blanks: two texts that differ only in the case of their
    letters are interpreted alike, and so are a text and the same text
    between runs of whitespace. *)
Theorem interpret_ignores_case_and_blanks :
  forall (raw : string),
    (forall raw', PyStr.lower raw' = PyStr.lower raw ->
                  interpret raw' = interpret raw) /\
    (forall pre post,
        all_chars PyStr.is_space pre = true ->
        all_chars PyStr.is_space post = true ->
        interpret (pre ++ raw ++ post) = interpret raw).
Proof.
  intros raw. split.
  - intros raw' H. unfold interpret.
    now rewrite <- !strip_lower, H.
  - intros pre post Hpre Hpost. unfold interpret.
    now rewrite strip_blank_app, strip_app_blank.
Qed.

Lemma interpret_ignores_case_and_blanks_witness :
  interpret "  YES " = interpret "  yes " /\
  interpret "  yes " = interpret "yes".
Proof.
  split.
  - now apply (proj1 (interpret_ignores_case_and_blanks "  yes ")).
  - now apply (proj2 (interpret_ignores_case_and_blanks "yes") "  " " ").
Defined.
